(** * Observable agent: execution loop and cost ledger

    A shallow embedding of

      - [src/observability/cost_tracker.py]  (StepCost, QueryCost, CostTracker)
      - [src/agent/observable_agent.py]      (ObservableAgent.run, _execute_tool)
      - [src/agent/specialists.py]           (the three agent factories)
      - [src/main.py]                        (the three-phase pipeline)

    Python objects become records, mutation becomes explicit state passing,
    and the collaborators that live outside the two files (the model call,
    the loop detector, the tool registry, [json.loads], the tracer's id
    generator) are functions over an abstract world state.

    Floats are IEEE binary64 in Python; they are primitive binary64 floats
    here, so every float equality below is an equality of doubles. *)

From Stdlib Require Import ZArith List String Bool Lia DecimalString.
From Stdlib Require Import Floats.PrimFloat Numbers.Cyclic.Int63.Uint63.
Import ListNotations.

Set Warnings "-inexact-float".
Local Open Scope string_scope.
Local Open Scope Z_scope.

(* ===================================================================== *)
(** ** Python values used by both files                                   *)
(* ===================================================================== *)

(** [int / 1_000_000] is Python's true division on an [int]. For a token
    count [0 <= n < 2^53] both operands convert exactly and the result is
    the binary64 quotient of the conversions, which is what [py_per_million]
    computes. Token counts outside that range are outside the model. *)
Definition float_of_int (n : Z) : float := PrimFloat.of_uint63 (Uint63.of_Z n).

Definition py_per_million (n : Z) : float :=
  PrimFloat.div (float_of_int n) 1000000%float.

(** [str(n)] for an [int]. *)
Definition str_of_int (n : Z) : string := NilZero.string_of_int (Z.to_int n).

(** Truthiness of an optional string: [None] and the empty string are falsy. *)
Definition truthy_str (s : option string) : bool :=
  match s with
  | Some (String _ _) => true
  | _ => false
  end.

(** Truthiness of an optional list: [None] and [[]] are falsy. *)
Definition truthy_list {A : Type} (l : option (list A)) : bool :=
  match l with
  | Some (_ :: _) => true
  | _ => false
  end.

(** The part of a model response the two files read: [response.usage]
    ([prompt_tokens], [completion_tokens]), [response.model], and
    [response.choices[0].message] ([content], [tool_calls]). *)
Record Usage := {
  prompt_tokens : Z;
  completion_tokens : Z
}.

Record ToolCall := {
  tc_id : string;          (* tool_call.id *)
  tc_name : string;        (* tool_call.function.name *)
  tc_arguments : string    (* tool_call.function.arguments *)
}.

Record Response := {
  r_content : option string;
  r_tool_calls : option (list ToolCall);
  r_usage : option Usage;
  r_model : option string
}.

(* ===================================================================== *)
(** ** cost_tracker.py                                                    *)
(* ===================================================================== *)

Module StepCost.
Record t := mk {
  step_number : Z;
  model : string;
  input_tokens : Z;
  output_tokens : Z;
  cost_usd : float;
  is_tool_call : bool
}.
End StepCost.

Module QueryCost.
Record t := mk {
  query : string;
  steps : list StepCost.t;
  total_cost_usd : float;
  total_input_tokens : Z;
  total_output_tokens : Z
}.

(** [QueryCost(query=query)]: the dataclass defaults. *)
Definition new (q : string) : t := mk q [] 0%float 0 0.

(** [add_step]: append, then [+=] on each of the three totals. *)
Definition add_step (self : t) (step : StepCost.t) : t :=
  mk (query self)
     (steps self ++ [step])
     (PrimFloat.add (total_cost_usd self) (StepCost.cost_usd step))
     (total_input_tokens self + StepCost.input_tokens step)
     (total_output_tokens self + StepCost.output_tokens step).
End QueryCost.

Module CostTracker.
Record t := mk {
  queries : list QueryCost.t;
  _current_query : option QueryCost.t
}.

(** [__init__] *)
Definition new : t := mk [] None.

Definition start_query (self : t) (query : string) : t :=
  mk (queries self) (Some (QueryCost.new query)).

(** The rate computation of [log_completion] (lines 62-64). *)
Definition completion_cost (input_tokens output_tokens : Z) : float :=
  let input_cost := PrimFloat.mul (py_per_million input_tokens) 0.15%float in
  let output_cost := PrimFloat.mul (py_per_million output_tokens) 0.60%float in
  PrimFloat.add input_cost output_cost.

(** [log_completion]: both early returns leave the tracker as it is
    (the warnings go to the logger, which is not modelled). A dataclass
    instance is always truthy, so [if not self._current_query] tests for
    [None] only. *)
Definition log_completion (self : t) (step_number : Z) (response : Response)
           (is_tool_call : bool) : t :=
  match _current_query self with
  | None => self
  | Some current =>
      match r_usage response with
      | None => self
      | Some usage =>
          let input_tokens := prompt_tokens usage in
          let output_tokens := completion_tokens usage in
          let model :=
            match r_model response with
            | Some m => m
            | None => "gpt-4o-mini"
            end in
          let total_cost := completion_cost input_tokens output_tokens in
          let step_cost :=
            StepCost.mk step_number model input_tokens output_tokens
                        total_cost is_tool_call in
          mk (queries self) (Some (QueryCost.add_step current step_cost))
      end
  end.

Definition end_query (self : t) : t :=
  match _current_query self with
  | Some current => mk (queries self ++ [current]) None
  | None => self
  end.
End CostTracker.

(** *** Sums over the recorded steps *)

(** Summation of doubles in recording order, starting from [0.0]. *)
Definition float_sum (l : list float) : float :=
  fold_left PrimFloat.add l 0%float.

Definition int_sum (l : list Z) : Z := fold_left Z.add l 0.

(** The ledger invariant: each running total is the sum of the matching
    field over [steps]. *)
Definition ledger_totals_ok (q : QueryCost.t) : Prop :=
  QueryCost.total_cost_usd q
    = float_sum (map StepCost.cost_usd (QueryCost.steps q))
  /\ QueryCost.total_input_tokens q
    = int_sum (map StepCost.input_tokens (QueryCost.steps q))
  /\ QueryCost.total_output_tokens q
    = int_sum (map StepCost.output_tokens (QueryCost.steps q)).

(** One [log_completion] call: its three arguments. *)
Record Completion := {
  c_step_number : Z;
  c_response : Response;
  c_is_tool_call : bool
}.

Definition log_completions (self : CostTracker.t) (calls : list Completion)
  : CostTracker.t :=
  fold_left
    (fun t c => CostTracker.log_completion t (c_step_number c) (c_response c)
                                           (c_is_tool_call c))
    calls self.

(* ===================================================================== *)
(** ** Records of the tracer                                              *)
(* ===================================================================== *)

(** Modelled from the spec: [src/observability/tracer.py] is not among the
    sources; [ToolCallRecord] and [AgentStep] follow the spec's data model
    (ToolCallRecord: tool name, parsed input mapping, stringified output;
    StepRecord: step number, reasoning text, ordered list of
    ToolCallRecord, input and output token counts, cost). Wall-clock
    durations are left out: no property below reads them. Token counts and
    cost start at zero. *)
Module ToolCallRecord.
Record t (Json : Type) := mk {
  tool_name : string;
  tool_input : Json;
  tool_output : string
}.
Arguments mk {Json}.
Arguments tool_name {Json}.
Arguments tool_input {Json}.
Arguments tool_output {Json}.
End ToolCallRecord.

Module AgentStep.
Record t (Json : Type) := mk {
  step_number : Z;
  reasoning : option string;
  tool_calls : list (ToolCallRecord.t Json);
  input_tokens : Z;
  output_tokens : Z;
  cost_usd : float
}.
Arguments mk {Json}.
Arguments step_number {Json}.
Arguments reasoning {Json}.
Arguments tool_calls {Json}.
Arguments input_tokens {Json}.
Arguments output_tokens {Json}.
Arguments cost_usd {Json}.

(** [step.tool_calls.append(record)] *)
Definition append_tool_call {Json} (self : t Json)
           (r : ToolCallRecord.t Json) : t Json :=
  mk (step_number self) (reasoning self) (tool_calls self ++ [r])
     (input_tokens self) (output_tokens self) (cost_usd self).
End AgentStep.

(** What the tracer has been told, in order. *)
Inductive TraceEvent (Json : Type) :=
| Trace_start (agent_name query model trace_id : string)
| Trace_step (trace_id : string) (step : AgentStep.t Json)
| Trace_end (trace_id final_answer status : string) (error : option string).
Arguments Trace_start {Json}.
Arguments Trace_step {Json}.
Arguments Trace_end {Json}.

(* ===================================================================== *)
(** ** Conversation                                                       *)
(* ===================================================================== *)

Inductive Role := role_system | role_user | role_assistant | role_tool.

(** A message dict; a key the dict does not have is [None]. *)
Record Message := {
  msg_role : Role;
  msg_content : option string;
  msg_tool_calls : option (list ToolCall);
  msg_tool_call_id : option string;
  msg_name : option string
}.

Definition system_message (prompt : string) : Message :=
  {| msg_role := role_system; msg_content := Some prompt; msg_tool_calls := None;
     msg_tool_call_id := None; msg_name := None |}.

Definition user_message (query : string) : Message :=
  {| msg_role := role_user; msg_content := Some query; msg_tool_calls := None;
     msg_tool_call_id := None; msg_name := None |}.

(** Lines 101-105: [tool_calls] is kept only when truthy. *)
Definition assistant_message (reasoning : option string)
           (tool_calls : option (list ToolCall)) : Message :=
  {| msg_role := role_assistant; msg_content := reasoning;
     msg_tool_calls := if truthy_list tool_calls then tool_calls else None;
     msg_tool_call_id := None; msg_name := None |}.

(** Lines 131-136 and 156-161: a tool-role message. *)
Definition tool_message (tool_call_id tool_name content : string) : Message :=
  {| msg_role := role_tool; msg_content := Some content; msg_tool_calls := None;
     msg_tool_call_id := Some tool_call_id; msg_name := Some tool_name |}.

Definition LOOP_MARKER : string := "⚠️ LOOP DETECTED: ".

(** The result of either loop-detector check. *)
Record LoopResult := {
  is_looping : bool;
  strategy : string;
  message : string
}.

(** What [run] returns: a dict whose ["steps"] key may be absent. *)
Record RunResult := {
  answer : string;
  trace_id : string;
  steps : option Z;
  status : string
}.

(** A call, or an [except Exception as e] with [str(e)]. *)
Inductive outcome (A : Type) :=
| Ok (a : A)
| Raised (e : string).
Arguments Ok {A}.
Arguments Raised {A}.

(** The collaborators of the agent, as functions over a world state [W]
    that they may read and change. *)
Record Collaborators (W Tool Schema Json : Type) := {
  (** [await acompletion(model=, messages=, tools=, tool_choice=)] *)
  acompletion : W -> string -> list Message -> option (list Schema) ->
                option string -> outcome Response * W;
  (** [tool.to_openai_schema()] *)
  to_openai_schema : Tool -> Schema;
  (** [loop_detector.check_tool_call(tool_name, tool_input_str)] *)
  check_tool_call : W -> string -> string -> LoopResult * W;
  (** [loop_detector.check_output_stagnation(reasoning)] *)
  check_output_stagnation : W -> string -> LoopResult * W;
  (** [registry.get_tool(tool_name)]; [None] when the result is falsy *)
  get_tool : W -> string -> option Tool;
  (** [str] of [tool.execute] applied to the unpacked [tool_input] *)
  execute : W -> Tool -> Json -> outcome string * W;
  (** [json.loads(text)] *)
  json_loads : string -> outcome Json;
  (** the literal [{}] *)
  json_empty : Json;
  (** [tracer.start_trace(agent_name, user_query, model)] returns the id *)
  start_trace : W -> string -> string -> string -> string * W
}.
Arguments acompletion {W Tool Schema Json}.
Arguments to_openai_schema {W Tool Schema Json}.
Arguments check_tool_call {W Tool Schema Json}.
Arguments check_output_stagnation {W Tool Schema Json}.
Arguments get_tool {W Tool Schema Json}.
Arguments execute {W Tool Schema Json}.
Arguments json_loads {W Tool Schema Json}.
Arguments json_empty {W Tool Schema Json}.
Arguments start_trace {W Tool Schema Json}.

(** The fields [__init__] sets and [run] only reads. *)
Record Agent (Tool : Type) := {
  model : string;
  max_steps : Z;
  agent_name : string;
  system_prompt : option string;
  tools : list Tool
}.
Arguments model {Tool}.
Arguments max_steps {Tool}.
Arguments agent_name {Tool}.
Arguments system_prompt {Tool}.
Arguments tools {Tool}.

(** Everything a run can change and that outlives an exception: the world
    of the collaborators, the agent's own [CostTracker], what the tracer
    was told, and the calls that reached the tool registry (an
    observation log, in arrival order). *)
Record AgentState (W Json : Type) := {
  world : W;
  cost_tracker : CostTracker.t;
  tracer_log : list (TraceEvent Json);
  registry_log : list ToolCall
}.
Arguments world {W Json}.
Arguments cost_tracker {W Json}.
Arguments tracer_log {W Json}.
Arguments registry_log {W Json}.

(** [range(1, n + 1)] *)
Definition py_range_1 (n : Z) : list Z :=
  map Z.of_nat (seq 1 (Z.to_nat n)).

(** How the [for] loop of [run] was left: by the [break] of line 114, by
    the [break] of line 172, or by running out of [range]. *)
Inductive LoopExit :=
| Exit_final (reasoning : option string)
| Exit_stagnation (stagnation_message : string)
| Exit_exhausted.

(** The value of [final_answer] when the loop is left. *)
Definition final_answer_of (e : LoopExit) : option string :=
  match e with
  | Exit_final reasoning => reasoning
  | Exit_stagnation m => Some ("Agent stopped due to stagnation: " ++ m)
  | Exit_exhausted => None
  end.

(** What one iteration does to the loop: one of the two [break]s, or on to
    the next value of [step_number]. *)
Inductive Ctl :=
| Break_final (reasoning : option string)
| Break_stagnation (stagnation_message : string)
| Next.

(* ===================================================================== *)
(** ** observable_agent.py                                                *)
(* ===================================================================== *)

Section ObservableAgent.

Variables W Tool Schema Json : Type.
Variable env : Collaborators W Tool Schema Json.
Variable self : Agent Tool.

Abbreviation State := (AgentState W Json).
Abbreviation Step := (AgentStep.t Json).

(** *** State and exceptions

    A computation takes the state and gives back an outcome and the state
    as it is then; a raised exception keeps the changes made before it. *)
Definition M (A : Type) : Type := State -> outcome A * State.

Definition ret {A} (a : A) : M A := fun s => (Ok a, s).

Definition bind {A B} (m : M A) (k : A -> M B) : M B :=
  fun s =>
    match m s with
    | (Ok a, s') => k a s'
    | (Raised e, s') => (Raised e, s')
    end.

Definition raise {A} (e : string) : M A := fun s => (Raised e, s).

(** [try: m  except Exception as e: handler(str(e))] *)
Definition try_except {A} (m : M A) (handler : string -> M A) : M A :=
  fun s =>
    match m s with
    | (Ok a, s') => (Ok a, s')
    | (Raised e, s') => handler e s'
    end.

Definition of_outcome {A} (o : outcome A) : M A := fun s => (o, s).

Notation "x <- m ;; k" := (bind m (fun x => k))
  (at level 61, m at next level, right associativity).
Notation "' pat <- m ;; k" := (bind m (fun x => match x with pat => k end))
  (at level 61, pat pattern, m at next level, right associativity).
Notation "m ;;; k" := (bind m (fun _ => k))
  (at level 61, right associativity).

Definition set_world (s : State) (w : W) : State :=
  {| world := w; cost_tracker := cost_tracker s;
     tracer_log := tracer_log s; registry_log := registry_log s |}.

(** A collaborator that answers and moves the world on. *)
Definition ask {A} (f : W -> A * W) : M A :=
  fun s => let (a, w) := f (world s) in (Ok a, set_world s w).

(** A collaborator that may raise. *)
Definition ask_raising {A} (f : W -> outcome A * W) : M A :=
  fun s => let (o, w) := f (world s) in (o, set_world s w).

(** A method call on [self.cost_tracker]. *)
Definition on_cost_tracker (f : CostTracker.t -> CostTracker.t) : M unit :=
  fun s => (Ok tt,
            {| world := world s; cost_tracker := f (cost_tracker s);
               tracer_log := tracer_log s; registry_log := registry_log s |}).

(** A call on [self.tracer]. *)
Definition tell_tracer (ev : TraceEvent Json) : M unit :=
  fun s => (Ok tt,
            {| world := world s; cost_tracker := cost_tracker s;
               tracer_log := tracer_log s ++ [ev];
               registry_log := registry_log s |}).

(** [registry.get_tool(tool_name)], noting which call asked. *)
Definition registry_get_tool (tool_call : ToolCall) (tool_name : string)
  : M (option Tool) :=
  fun s => (Ok (get_tool env (world s) tool_name),
            {| world := world s; cost_tracker := cost_tracker s;
               tracer_log := tracer_log s;
               registry_log := registry_log s ++ [tool_call] |}).

(** *** [_execute_tool] (lines 200-215)

    The returned tuple is [(tool_name, tool_input_str, result)]; the
    duration is left out. *)
Definition ToolResult : Type := string * string * string.

Definition _execute_tool (tool_call : ToolCall)
           (tool_name tool_input_str : string) : M ToolResult :=
  result <-
    try_except
      (tool <- registry_get_tool tool_call tool_name ;;
       match tool with
       | None => ret ("Error: Tool '" ++ tool_name ++ "' not found")
       | Some tool =>
           tool_input <- of_outcome (json_loads env tool_input_str) ;;
           ask_raising (fun w => execute env w tool tool_input)
       end)
      (fun e => ret ("Error executing " ++ tool_name ++ ": " ++ e)) ;;
  ret (tool_name, tool_input_str, result).

(** *** The loop over the requested calls (lines 117-142)

    A coroutine object made by calling [_execute_tool] does not start
    until it is awaited, so [tool_call_tasks] holds the arguments. *)
Definition Task : Type := ToolCall * string * string.

Definition loop_warning (tool_call : ToolCall) (loop_result : LoopResult)
  : Message :=
  tool_message (tc_id tool_call) (tc_name tool_call)
               (LOOP_MARKER ++ message loop_result).

Fixpoint dispatch_tool_calls (tool_calls : list ToolCall)
         (messages : list Message) (tool_call_tasks : list Task)
  : M (list Message * list Task) :=
  match tool_calls with
  | [] => ret (messages, tool_call_tasks)
  | tool_call :: rest =>
      let tool_name := tc_name tool_call in
      let tool_input_str := tc_arguments tool_call in
      loop_result <-
        ask (fun w => check_tool_call env w tool_name tool_input_str) ;;
      if is_looping loop_result then
        dispatch_tool_calls rest
          (messages ++ [loop_warning tool_call loop_result]) tool_call_tasks
      else
        dispatch_tool_calls rest messages
          (tool_call_tasks ++ [(tool_call, tool_name, tool_input_str)])
  end.

(** [await asyncio.gather] on the unpacked [tool_call_tasks] (line 145). [_execute_tool]
    has no [await] in its body, so each task runs from start to end once
    the event loop picks it, and the loop picks the tasks in the order
    [gather] was given them; the results come back in that order. *)
Fixpoint gather (tool_call_tasks : list Task) : M (list ToolResult) :=
  match tool_call_tasks with
  | [] => ret []
  | (tool_call, tool_name, tool_input_str) :: rest =>
      r <- _execute_tool tool_call tool_name tool_input_str ;;
      rs <- gather rest ;;
      ret (r :: rs)
  end.

(** *** Folding the results into the step and the conversation
    (lines 148-161); the argument is [zip(tool_calls, tool_results)]. *)
Fixpoint record_tool_results (pairs : list (ToolCall * ToolResult))
         (step : Step) (messages : list Message)
  : M (Step * list Message) :=
  match pairs with
  | [] => ret (step, messages)
  | (tool_call, (tool_name, tool_input_str, tool_output)) :: rest =>
      tool_input <-
        (if truthy_str (Some tool_input_str)
         then of_outcome (json_loads env tool_input_str)
         else ret (json_empty env)) ;;
      let step :=
        AgentStep.append_tool_call step
          (ToolCallRecord.mk tool_name tool_input tool_output) in
      let messages :=
        (messages ++ [tool_message (tc_id tool_call) tool_name tool_output])%list in
      record_tool_results rest step messages
  end.

(** Lines 83-98: the step record with its usage figures. *)
Definition new_step (step_number : Z) (response : Response) : Step :=
  let reasoning := r_content response in
  match r_usage response with
  | Some usage =>
      let input_tokens := prompt_tokens usage in
      let output_tokens := completion_tokens usage in
      let input_cost :=
        PrimFloat.mul (py_per_million input_tokens) 0.15%float in
      let output_cost :=
        PrimFloat.mul (py_per_million output_tokens) 0.60%float in
      AgentStep.mk step_number reasoning [] input_tokens output_tokens
                   (PrimFloat.add input_cost output_cost)
  | None => AgentStep.mk step_number reasoning [] 0 0 0%float
  end.

(** Lines 70-71: [tools=tool_schemas if tool_schemas else None] and
    [tool_choice="auto" if tool_schemas else None]. *)
Definition tools_argument (tool_schemas : list Schema)
  : option (list Schema) :=
  match tool_schemas with [] => None | _ => Some tool_schemas end.

Definition tool_choice_argument (tool_schemas : list Schema)
  : option string :=
  match tool_schemas with [] => None | _ => Some "auto" end.

(** *** One iteration of the [for] loop (lines 62-172) *)
Definition loop_body (trace_id : string) (step_number : Z)
           (messages : list Message) : M (Ctl * list Message) :=
  let tool_schemas := map (to_openai_schema env) (tools self) in
  response <-
    ask_raising (fun w =>
      acompletion env w (model self) messages
        (tools_argument tool_schemas)
        (tool_choice_argument tool_schemas)) ;;
  on_cost_tracker
    (fun t => CostTracker.log_completion t step_number response false) ;;;
  let reasoning := r_content response in
  let step := new_step step_number response in
  let messages :=
    (messages ++ [assistant_message reasoning (r_tool_calls response)])%list in
  match r_tool_calls response with
  | Some ((_ :: _) as tool_calls) =>
      ' (messages, tool_call_tasks) <-
        dispatch_tool_calls tool_calls messages [] ;;
      tool_results <- gather tool_call_tasks ;;
      ' (step, messages) <-
        record_tool_results (combine tool_calls tool_results)
                            step messages ;;
      tell_tracer (Trace_step trace_id step) ;;;
      if truthy_str reasoning then
        stagnation <-
          ask (fun w =>
            check_output_stagnation env w
              (match reasoning with Some r => r | None => EmptyString end)) ;;
        if is_looping stagnation
        then ret (Break_stagnation (message stagnation), messages)
        else ret (Next, messages)
      else ret (Next, messages)
  | _ =>
      tell_tracer (Trace_step trace_id step) ;;;
      ret (Break_final reasoning, messages)
  end.

(** *** The [for] loop (line 61): [step_number] keeps its last value. *)
Fixpoint agent_loop (trace_id : string) (range : list Z) (step_number : Z)
         (messages : list Message) : M (Z * LoopExit) :=
  match range with
  | [] => ret (step_number, Exit_exhausted)
  | n :: rest =>
      ' (ctl, messages) <- loop_body trace_id n messages ;;
      match ctl with
      | Break_final reasoning => ret (n, Exit_final reasoning)
      | Break_stagnation m => ret (n, Exit_stagnation m)
      | Next => agent_loop trace_id rest n messages
      end
  end.

Definition max_steps_answer : string :=
  "Agent reached max steps (" ++ str_of_int (max_steps self)
    ++ ") without completing the task.".

(** Lines 51-54. *)
Definition initial_messages (user_query : string) : list Message :=
  (if truthy_str (system_prompt self)
   then [system_message
           (match system_prompt self with Some p => p | None => EmptyString end)]
   else [])
  ++ [user_message user_query].

(** The loop as [run] starts it. *)
Definition run_loop (trace_id user_query : string) : M (Z * LoopExit) :=
  agent_loop trace_id (py_range_1 (max_steps self)) 0
             (initial_messages user_query).

(** The body of [try] (lines 60-187). *)
Definition run_try (trace_id user_query : string) : M RunResult :=
  ' (step_number, exit) <- run_loop trace_id user_query ;;
  let final_answer :=
    match final_answer_of exit with
    | Some a => a
    | None => max_steps_answer
    end in
  tell_tracer (Trace_end trace_id final_answer "completed" None) ;;;
  on_cost_tracker CostTracker.end_query ;;;
  ret {| answer := final_answer; trace_id := trace_id;
         steps := Some step_number; status := "completed" |}.

(** The [except] clause (lines 189-198). *)
Definition run_except (trace_id : string) (e : string) : M RunResult :=
  tell_tracer (Trace_end trace_id EmptyString "error" (Some e)) ;;;
  on_cost_tracker CostTracker.end_query ;;;
  ret {| answer := "Error: " ++ e; trace_id := trace_id;
         steps := None; status := "error" |}.

(** Lines 47-49: the trace and the ledger are opened before [try]. *)
Definition run_open (user_query : string) : M string :=
  trace_id <-
    ask (fun w =>
      start_trace env w (agent_name self) user_query (model self)) ;;
  tell_tracer
    (Trace_start (agent_name self) user_query (model self) trace_id) ;;;
  on_cost_tracker (fun t => CostTracker.start_query t user_query) ;;;
  ret trace_id.

(** [run] *)
Definition run (user_query : string) : M RunResult :=
  trace_id <- run_open user_query ;;
  try_except (run_try trace_id user_query) (run_except trace_id).

End ObservableAgent.

Arguments run {W Tool Schema Json}.
Arguments run_open {W Tool Schema Json}.
Arguments run_try {W Tool Schema Json}.
Arguments run_except {W Json}.
Arguments run_loop {W Tool Schema Json}.
Arguments agent_loop {W Tool Schema Json}.
Arguments loop_body {W Tool Schema Json}.
Arguments dispatch_tool_calls {W Tool Schema Json}.
Arguments gather {W Tool Schema Json}.
Arguments record_tool_results {W Tool Schema Json}.
Arguments _execute_tool {W Tool Schema Json}.
Arguments loop_warning : clear implicits.
Arguments initial_messages {Tool}.
Arguments max_steps_answer {Tool}.
Arguments new_step : clear implicits.
Arguments new_step {Json}.
Arguments set_world {W Json}.
Arguments M : clear implicits.
Arguments tools_argument {Schema}.
Arguments tool_choice_argument {Schema}.
Arguments ret {W Json A}.
Arguments bind {W Json A B}.
Arguments raise {W Json A}.
Arguments try_except {W Json A}.
Arguments of_outcome {W Json A}.
Arguments ask {W Json A}.
Arguments ask_raising {W Json A}.
Arguments on_cost_tracker {W Json}.
Arguments tell_tracer {W Json}.
Arguments registry_get_tool {W Tool Schema Json}.

(* ===================================================================== *)
(** ** cost_tracker.py: [print_cost_breakdown]                            *)
(* ===================================================================== *)

(** Two built-ins of Python that the printing code uses: the format
    [:.6f] of a float, and the slice [s[:n]] of a string. *)
Record PyText := {
  format_6f : float -> string;
  slice_to : nat -> string -> string
}.

(** The newline character, and the double quote. *)
Definition NL : string := String (Ascii.ascii_of_nat 10) EmptyString.
Definition QUOTE : string := String (Ascii.ascii_of_nat 34) EmptyString.

(** [s * n] for a string. *)
Fixpoint repeat_string (s : string) (n : nat) : string :=
  match n with
  | O => EmptyString
  | S k => s ++ repeat_string s k
  end.

Definition RULE : string := repeat_string "=" 60.

(** Line 107: one line per step. *)
Definition step_line (txt : PyText) (step : StepCost.t) : string :=
  let step_type :=
    if StepCost.is_tool_call step then "Tool Call" else "Response" in
  "    Step " ++ str_of_int (StepCost.step_number step)
    ++ " (" ++ step_type ++ "): $"
    ++ format_6f txt (StepCost.cost_usd step)
    ++ " - " ++ str_of_int (StepCost.input_tokens step)
    ++ "/" ++ str_of_int (StepCost.output_tokens step) ++ " tokens".

(** Lines 100-107: what is printed for the [i]-th ledger. *)
Definition query_lines (txt : PyText) (i : Z) (query : QueryCost.t)
  : list string :=
  [ NL ++ "Query " ++ str_of_int i ++ ": "
       ++ slice_to txt 50 (QueryCost.query query) ++ "...";
    "  Total Cost: $" ++ format_6f txt (QueryCost.total_cost_usd query);
    "  Tokens: " ++ str_of_int (QueryCost.total_input_tokens query)
       ++ " in, " ++ str_of_int (QueryCost.total_output_tokens query)
       ++ " out";
    "  Steps: " ++ str_of_int (Z.of_nat (List.length (QueryCost.steps query)))
  ] ++ map (step_line txt) (QueryCost.steps query).

(** The totals the loop of lines 95-111 carries, and what it has printed. *)
Record Breakdown := {
  printed : list string;
  total_cost : float;
  total_input : Z;
  total_output : Z
}.

(** Lines 99-111: [for i, query in enumerate(self.queries, 1)]. *)
Fixpoint breakdown_loop (txt : PyText) (queries : list QueryCost.t) (i : Z)
         (acc : Breakdown) : Breakdown :=
  match queries with
  | [] => acc
  | query :: rest =>
      breakdown_loop txt rest (i + 1)
        {| printed := printed acc ++ query_lines txt i query;
           total_cost :=
             PrimFloat.add (total_cost acc) (QueryCost.total_cost_usd query);
           total_input :=
             total_input acc + QueryCost.total_input_tokens query;
           total_output :=
             total_output acc + QueryCost.total_output_tokens query |}
  end.

(** [print_cost_breakdown]: the arguments of its [print] calls, in order.
    It reads the tracker and changes nothing. *)
Definition print_cost_breakdown (txt : PyText) (self : CostTracker.t)
  : list string :=
  match CostTracker.queries self with
  | [] => ["No queries tracked yet."]
  | _ :: _ =>
      let done :=
        breakdown_loop txt (CostTracker.queries self) 1
          {| printed := [NL ++ RULE; "COST BREAKDOWN"; RULE];
             total_cost := 0%float; total_input := 0; total_output := 0 |} in
      printed done
      ++ [ NL ++ RULE;
           "TOTAL: $" ++ format_6f txt (total_cost done);
           "TOKENS: " ++ str_of_int (total_input done) ++ " input, "
              ++ str_of_int (total_output done) ++ " output";
           RULE ++ NL ]
  end.

(* ===================================================================== *)
(** ** observable_agent.py: [__init__]                                    *)
(* ===================================================================== *)

(** The two registry functions the constructors call. *)
Record Registry (Tool : Type) := {
  get_all_tools : list Tool;
  get_tools_by_category : string -> list Tool
}.
Arguments get_all_tools {Tool}.
Arguments get_tools_by_category {Tool}.

Definition DEFAULT_MODEL : string := "gemini/gemini-1.5-flash".

(** [__init__]: the fields [run] reads. [MODEL_NAME] is the value of the
    environment variable, if it is set. [model or os.getenv(...)] takes
    the environment's value when [model] is [None] or empty, and
    [tools] is replaced by the whole registry only when it is [None]. *)
Definition __init__ {Tool} (registry : Registry Tool)
           (MODEL_NAME : option string) (model : option string)
           (max_steps : Z) (agent_name : string)
           (system_prompt : option string) (tools : option (list Tool))
  : Agent Tool :=
  {| model :=
       if truthy_str model
       then match model with Some m => m | None => EmptyString end
       else match MODEL_NAME with Some v => v | None => DEFAULT_MODEL end;
     max_steps := max_steps;
     agent_name := agent_name;
     system_prompt := system_prompt;
     tools := match tools with
              | Some l => l
              | None => get_all_tools registry
              end |}.

(** Lines 41-43: a new agent has its own tracer and its own cost tracker,
    both empty; the world and the registry are shared. *)
Definition new_agent_state {W Json} (w : W) (registry_log : list ToolCall)
  : AgentState W Json :=
  {| world := w; cost_tracker := CostTracker.new; tracer_log := [];
     registry_log := registry_log |}.

(* ===================================================================== *)
(** ** specialists.py                                                     *)
(* ===================================================================== *)

Definition RESEARCHER_PROMPT : string :=
  "You are a world-class researcher with expertise in finding and extracting information.

Your capabilities:
- Search the web for current, accurate information
- Extract key facts and data from sources
- Verify information across multiple sources

Your approach:
1. Break down complex queries into searchable sub-questions
2. Use search tools to find relevant information
3. Extract and organize key findings

Be thorough, accurate, and cite your sources.".

Definition ANALYST_PROMPT : string :=
  "You are an expert analyst with deep skills in evaluation and critical thinking.

Your capabilities:
- Cross-reference information from multiple sources
- Identify patterns, trends, and inconsistencies
- Draw evidence-based conclusions

Your approach:
1. Examine all available information systematically
2. Look for patterns and contradictions
3. Synthesize findings into clear insights

Be thorough, skeptical, and evidence-based.".

Definition WRITER_PROMPT : string :=
  "You are a skilled writer who transforms complex analysis into clear, engaging content.

Your capabilities:
- Synthesize complex information into readable prose
- Structure content logically and coherently
- Create compelling narratives from data

Your approach:
1. Review all research and analysis provided
2. Structure the content logically
3. Write clearly and engagingly

Be clear, concise, and compelling.".

Definition create_researcher {Tool} (registry : Registry Tool)
           (MODEL_NAME : option string) (model : string) (max_steps : Z)
  : Agent Tool :=
  let system_prompt := RESEARCHER_PROMPT in
  let tools := get_tools_by_category registry "research" in
  __init__ registry MODEL_NAME (Some model) max_steps "Researcher"
           (Some system_prompt) (Some tools).

Definition create_analyst {Tool} (registry : Registry Tool)
           (MODEL_NAME : option string) (model : string) (max_steps : Z)
  : Agent Tool :=
  let system_prompt := ANALYST_PROMPT in
  let tools := get_tools_by_category registry "analysis" in
  __init__ registry MODEL_NAME (Some model) max_steps "Analyst"
           (Some system_prompt) (Some tools).

Definition create_writer {Tool} (registry : Registry Tool)
           (MODEL_NAME : option string) (model : string) (max_steps : Z)
  : Agent Tool :=
  let system_prompt := WRITER_PROMPT in
  let tools := [] in
  __init__ registry MODEL_NAME (Some model) max_steps "Writer"
           (Some system_prompt) (Some tools).

(** The default arguments of the three factories. *)
Definition RESEARCHER_MAX_STEPS : Z := 15.
Definition ANALYST_MAX_STEPS : Z := 20.
Definition WRITER_MAX_STEPS : Z := 4.

(* ===================================================================== *)
(** ** main.py                                                            *)
(* ===================================================================== *)

(** What [main] leaves behind: the exit code when it ends by
    [sys.exit], the arguments of its [print] calls in order, for each
    agent whose [run] was called the result and the agent's state after
    it, and the shared world and registry log at the end. *)
Record MainOutcome (W Json : Type) := {
  exit_code : option Z;
  stdout : list string;
  research : option (RunResult * AgentState W Json);
  analysis : option (RunResult * AgentState W Json);
  writing : option (RunResult * AgentState W Json);
  end_world : W;
  end_registry_log : list ToolCall
}.
Arguments exit_code {W Json}.
Arguments stdout {W Json}.
Arguments research {W Json}.
Arguments analysis {W Json}.
Arguments writing {W Json}.
Arguments end_world {W Json}.
Arguments end_registry_log {W Json}.

(** [result.get('steps', 0)], as text. *)
Definition steps_text (r : RunResult) : string :=
  str_of_int (match steps r with Some k => k | None => 0 end).

(** [result.get("status") == "error"] *)
Definition phase_failed (r : RunResult) : bool :=
  String.eqb (status r) "error".

Definition USAGE : string :=
  "Usage: python -m src.main " ++ QUOTE ++ "Your research query" ++ QUOTE.

(** Lines 49 and 64. *)
Definition analysis_query_of (research_output : string) : string :=
  "Analyze the following research findings and provide insights:"
    ++ NL ++ NL ++ research_output.

Definition writing_query_of (research_output analysis_output : string)
  : string :=
  "Write a polished, comprehensive report based on this research and analysis:"
    ++ NL ++ NL ++ "Research:" ++ NL ++ research_output
    ++ NL ++ NL ++ "Analysis:" ++ NL ++ analysis_output.

(** The output so far, and the arguments of the next [print] calls. *)
Definition prints (out lines : list string) : list string :=
  (out ++ lines)%list.

(** Lines 75-90: what is printed after the three phases. *)
Definition report_lines (txt : PyText) (cost_tracker : CostTracker.t)
           (research_result analysis_result writing_result : RunResult)
  : list string :=
  [ NL ++ RULE; "📄 FINAL REPORT"; RULE; answer writing_result;
    NL ++ RULE; "📊 EXECUTION SUMMARY"; RULE;
    "Research: " ++ steps_text research_result ++ " steps";
    "Analysis: " ++ steps_text analysis_result ++ " steps";
    "Writing: " ++ steps_text writing_result ++ " steps";
    "Total phases: 3"; RULE; NL ]
  ++ print_cost_breakdown txt cost_tracker.

Section Main.

Variables W Tool Schema Json : Type.
Variable txt : PyText.
Variable registry : Registry Tool.
Variable MODEL_NAME : option string.

(** Each agent has a loop detector of its own, so each has its own
    collaborators; they act on the one shared world. *)
Variables env_researcher env_analyst env_writer
  : Collaborators W Tool Schema Json.

(** The module-level [cost_tracker] of cost_tracker.py, which [main]
    imports and only prints. The agents do not use it (each has
    [self.cost_tracker]), and no collaborator is handed it. *)
Variable cost_tracker : CostTracker.t.

(** The [except Exception as e] of [main] (lines 92-95); the traceback
    goes to the error stream. *)
Definition main_except (out : list string) (e : string)
           (research analysis : option (RunResult * AgentState W Json))
           (s : AgentState W Json) : MainOutcome W Json :=
  {| exit_code := None;
     stdout := prints out [NL ++ "❌ Error: " ++ e];
     research := research; analysis := analysis; writing := None;
     end_world := world s; end_registry_log := registry_log s |}.

(** Lines 62-90: the writing phase and the report. *)
Definition main_writing (writer : Agent Tool) (out : list string)
           (research_result : RunResult) (s_r : AgentState W Json)
           (analysis_result : RunResult) (s_a : AgentState W Json)
  : MainOutcome W Json :=
  let research_output := answer research_result in
  let analysis_output := answer analysis_result in
  let out := prints out ["✍️ Phase 3: Writing"] in
  let writing_query := writing_query_of research_output analysis_output in
  match run env_writer writer writing_query
            (new_agent_state (world s_a) (registry_log s_a)) with
  | (Raised e, s_w) =>
      main_except out e (Some (research_result, s_r))
                  (Some (analysis_result, s_a)) s_w
  | (Ok writing_result, s_w) =>
      if phase_failed writing_result then
        {| exit_code := None;
           stdout :=
             prints (prints out [NL ++ "❌ Writing phase failed: "
                                    ++ answer writing_result])
                    (print_cost_breakdown txt cost_tracker);
           research := Some (research_result, s_r);
           analysis := Some (analysis_result, s_a);
           writing := Some (writing_result, s_w);
           end_world := world s_w; end_registry_log := registry_log s_w |}
      else
        {| exit_code := None;
           stdout :=
             prints out (report_lines txt cost_tracker research_result
                                      analysis_result writing_result);
           research := Some (research_result, s_r);
           analysis := Some (analysis_result, s_a);
           writing := Some (writing_result, s_w);
           end_world := world s_w; end_registry_log := registry_log s_w |}
  end.

(** Lines 47-60: the analysis phase. *)
Definition main_analysis (analyst writer : Agent Tool) (out : list string)
           (research_result : RunResult) (s_r : AgentState W Json)
  : MainOutcome W Json :=
  let research_output := answer research_result in
  let out := prints out ["🔍 Phase 2: Analysis"] in
  let analysis_query := analysis_query_of research_output in
  match run env_analyst analyst analysis_query
            (new_agent_state (world s_r) (registry_log s_r)) with
  | (Raised e, s_a) =>
      main_except out e (Some (research_result, s_r)) None s_a
  | (Ok analysis_result, s_a) =>
      if phase_failed analysis_result then
        {| exit_code := None;
           stdout :=
             prints (prints out [NL ++ "❌ Analysis phase failed: "
                                    ++ answer analysis_result])
                    (print_cost_breakdown txt cost_tracker);
           research := Some (research_result, s_r);
           analysis := Some (analysis_result, s_a);
           writing := None;
           end_world := world s_a; end_registry_log := registry_log s_a |}
      else
        let analysis_output := answer analysis_result in
        let out :=
          prints out [ NL ++ "✅ Analysis completed in "
                          ++ steps_text analysis_result ++ " steps";
                       "Analysis: " ++ slice_to txt 200 analysis_output
                          ++ "..." ++ NL ] in
        main_writing writer out research_result s_r analysis_result s_a
  end.

(** [main] (lines 14-95), on [sys.argv] and the shared world. *)
Definition main (argv : list string) (w : W) (calls_so_far : list ToolCall)
  : MainOutcome W Json :=
  match argv with
  | _ :: query :: _ =>
      let out :=
        prints [] [NL ++ "🔍 Starting research on: " ++ query ++ NL] in
      let researcher :=
        create_researcher registry MODEL_NAME DEFAULT_MODEL
                          RESEARCHER_MAX_STEPS in
      let analyst :=
        create_analyst registry MODEL_NAME DEFAULT_MODEL ANALYST_MAX_STEPS in
      let writer :=
        create_writer registry MODEL_NAME DEFAULT_MODEL WRITER_MAX_STEPS in
      let out := prints out ["📚 Phase 1: Research"] in
      match run env_researcher researcher query
                (new_agent_state w calls_so_far) with
      | (Raised e, s_r) => main_except out e None None s_r
      | (Ok research_result, s_r) =>
          if phase_failed research_result then
            {| exit_code := None;
               stdout :=
                 prints (prints out [NL ++ "❌ Research phase failed: "
                                        ++ answer research_result])
                        (print_cost_breakdown txt cost_tracker);
               research := Some (research_result, s_r);
               analysis := None; writing := None;
               end_world := world s_r;
               end_registry_log := registry_log s_r |}
          else
            let research_output := answer research_result in
            let out :=
              prints out [ NL ++ "✅ Research completed in "
                              ++ steps_text research_result ++ " steps";
                           "Research findings: "
                              ++ slice_to txt 200 research_output
                              ++ "..." ++ NL ] in
            main_analysis analyst writer out research_result s_r
      end
  | _ =>
      {| exit_code := Some 1; stdout := [USAGE];
         research := None; analysis := None; writing := None;
         end_world := w; end_registry_log := calls_so_far |}
  end.

End Main.

Arguments main {W Tool Schema Json}.
Arguments main_analysis {W Tool Schema Json}.
Arguments main_writing {W Tool Schema Json}.
Arguments main_except {W Json}.

(* ===================================================================== *)
(** ** Concrete collaborators for worked runs                             *)
(* ===================================================================== *)

Module Scenario.

(** A parsed argument object: its members, as text. *)
Inductive JsonValue := Json_object (members : list (string * string)).

(** Two registered tools: one that answers, one that raises. *)
Inductive ToolImpl := Calculator | Failing.

(** [json.loads] on the two argument texts the runs below use: ["{}"] is
    the empty object, ["{"] is cut short; every other text is refused. *)
Definition loads (text : string) : outcome JsonValue :=
  if String.eqb text "{}" then Ok (Json_object [])
  else if String.eqb text "{"
  then Raised ("Expecting property name enclosed in double quotes: "
               ++ "line 1 column 2 (char 1)")
  else Raised "Expecting value: line 1 column 1 (char 0)".

(** The world counts the model calls answered so far. The model answers
    from a script and fails once the script is used up; the loop detector
    flags a tool call by name and a reasoning text by a predicate. *)
Definition collaborators (script : list (outcome Response))
           (flagged : string -> bool) (stagnant : string -> bool)
  : Collaborators nat ToolImpl string JsonValue :=
  {| acompletion := fun w _ _ _ _ =>
       (nth w script (Raised "Connection error."), S w);
     to_openai_schema := fun t =>
       match t with Calculator => "calculator" | Failing => "failing" end;
     check_tool_call := fun w tool_name _ =>
       ({| is_looping := flagged tool_name; strategy := "exact_match";
           message := "Repeated call to " ++ tool_name |}, w);
     check_output_stagnation := fun w text =>
       ({| is_looping := stagnant text; strategy := "output_stagnation";
           message := "Same output repeated" |}, w);
     get_tool := fun _ tool_name =>
       if String.eqb tool_name "calculator" then Some Calculator
       else if String.eqb tool_name "failing" then Some Failing
       else None;
     execute := fun w t _ =>
       match t with
       | Calculator => (Ok "4", w)
       | Failing => (Raised "division by zero", w)
       end;
     json_loads := loads;
     json_empty := Json_object [];
     start_trace := fun w _ _ _ => ("trace-1", w) |}.

Definition agent (max_steps : Z) : Agent ToolImpl :=
  {| model := "gemini/gemini-1.5-flash"; max_steps := max_steps;
     agent_name := "ObservableAgent"; system_prompt := None;
     tools := [Calculator; Failing] |}.

Definition fresh : AgentState nat JsonValue :=
  {| world := 0%nat; cost_tracker := CostTracker.new;
     tracer_log := []; registry_log := [] |}.

Definition usage_1000_500 : option Usage :=
  Some {| prompt_tokens := 1000; completion_tokens := 500 |}.

(** An assistant turn that asks for the given calls. *)
Definition asks (content : option string) (calls : list ToolCall)
  : outcome Response :=
  Ok {| r_content := content; r_tool_calls := Some calls;
        r_usage := usage_1000_500; r_model := Some "gemini-1.5-flash" |}.

(** An assistant turn without tool calls. *)
Definition says (content : option string) : outcome Response :=
  Ok {| r_content := content; r_tool_calls := None;
        r_usage := usage_1000_500; r_model := Some "gemini-1.5-flash" |}.

Definition call (id tool_name arguments : string) : ToolCall :=
  {| tc_id := id; tc_name := tool_name; tc_arguments := arguments |}.

Definition never (_ : string) : bool := false.

End Scenario.

(* ===================================================================== *)
(** ** Predicates the properties are stated with                          *)
(* ===================================================================== *)

(** What a tracker with an open ledger looks like: the completed list is
    [done], and the open ledger is for [query] and has consistent totals. *)
Definition ledger_open (done : list QueryCost.t) (query : string)
           (t : CostTracker.t) : Prop :=
  CostTracker.queries t = done
  /\ exists q, CostTracker._current_query t = Some q
               /\ QueryCost.query q = query
               /\ ledger_totals_ok q.

(** [frames R m]: whatever [m] does, and whether it returns or raises, the
    state it leaves is related by [R] to the state it found. *)
Definition frames {W Json A}
           (R : AgentState W Json -> AgentState W Json -> Prop)
           (m : M W Json A) : Prop :=
  forall s, R s (snd (m s)).

(** The cost tracker has only received [log_completion] calls. *)
Definition cost_logged {W Json} (s s' : AgentState W Json) : Prop :=
  exists cs, cost_tracker s' = log_completions (cost_tracker s) cs.

(** Neither the cost tracker nor the tracer has been touched. *)
Definition tools_only {W Json} (s s' : AgentState W Json) : Prop :=
  cost_tracker s' = cost_tracker s /\ tracer_log s' = tracer_log s.

(** [self.registry_log.append(tool_call)], as a state update. *)
Definition note_registry {W Json} (s : AgentState W Json) (c : ToolCall)
  : AgentState W Json :=
  {| world := world s; cost_tracker := cost_tracker s;
     tracer_log := tracer_log s; registry_log := registry_log s ++ [c] |}.

Definition note_tracer {W Json} (s : AgentState W Json) (ev : TraceEvent Json)
  : AgentState W Json :=
  {| world := world s; cost_tracker := cost_tracker s;
     tracer_log := tracer_log s ++ [ev]; registry_log := registry_log s |}.

Definition set_cost_tracker {W Json} (s : AgentState W Json)
           (t : CostTracker.t) : AgentState W Json :=
  {| world := world s; cost_tracker := t;
     tracer_log := tracer_log s; registry_log := registry_log s |}.

(** The state in which the [try] block starts. *)
Definition opened {W Tool Schema Json} (env : Collaborators W Tool Schema Json)
           (self : Agent Tool) (user_query : string) (s : AgentState W Json)
  : string * AgentState W Json :=
  let (trace_id, w) :=
    start_trace env (world s) (agent_name self) user_query (model self) in
  (trace_id,
   {| world := w;
      cost_tracker := CostTracker.start_query (cost_tracker s) user_query;
      tracer_log :=
        tracer_log s
        ++ [Trace_start (agent_name self) user_query (model self) trace_id];
      registry_log := registry_log s |}).

(** Whether a result dict has all of [answer], [trace_id], [steps] and
    [status]: the first, second and fourth are always there. *)
Definition has_all_four_fields (r : RunResult) : Prop :=
  exists k, steps r = Some k.

(** *** The tool phase, read off as functions of the world

    What the loop detector answers for each requested call, in request
    order, each answer given in the world the previous check left. *)
Fixpoint loop_verdicts {W Tool Schema Json}
         (env : Collaborators W Tool Schema Json) (w : W)
         (tool_calls : list ToolCall) : list LoopResult * W :=
  match tool_calls with
  | [] => ([], w)
  | c :: rest =>
      let (v, w1) := check_tool_call env w (tc_name c) (tc_arguments c) in
      let (vs, w2) := loop_verdicts env w1 rest in
      (v :: vs, w2)
  end.

(** The warnings appended for the flagged calls among [judged]. *)
Definition warnings (judged : list (ToolCall * LoopResult)) : list Message :=
  flat_map (fun p => if is_looping (snd p)
                     then [loop_warning (fst p) (snd p)] else []) judged.

(** The tasks queued for the calls among [judged] that are not flagged. *)
Definition queued (judged : list (ToolCall * LoopResult))
  : list (ToolCall * string * string) :=
  flat_map (fun p => if is_looping (snd p) then []
                     else [(fst p, tc_name (fst p), tc_arguments (fst p))])
           judged.

(** The call a task was queued for. *)
Definition task_call (t : ToolCall * string * string) : ToolCall :=
  fst (fst t).

(** The text [_execute_tool] produces, and the world it leaves. *)
Definition execute_tool_result {W Tool Schema Json}
           (env : Collaborators W Tool Schema Json) (w : W)
           (tool_name tool_input_str : string) : string * W :=
  match get_tool env w tool_name with
  | None => ("Error: Tool '" ++ tool_name ++ "' not found", w)
  | Some t =>
      match json_loads env tool_input_str with
      | Raised e => ("Error executing " ++ tool_name ++ ": " ++ e, w)
      | Ok tool_input =>
          match execute env w t tool_input with
          | (Ok out, w1) => (out, w1)
          | (Raised e, w1) =>
              ("Error executing " ++ tool_name ++ ": " ++ e, w1)
          end
      end
  end.

(** Whether a tool invocation faults: the tool is missing, the argument
    text does not parse, or the tool raises. *)
Definition tool_faults {W Tool Schema Json}
           (env : Collaborators W Tool Schema Json) (w : W)
           (tool_name tool_input_str : string) : bool :=
  match get_tool env w tool_name with
  | None => true
  | Some t =>
      match json_loads env tool_input_str with
      | Raised _ => true
      | Ok tool_input =>
          match execute env w t tool_input with
          | (Ok _, _) => false
          | (Raised _, _) => true
          end
      end
  end.

(** The results [gather] returns for [tasks], and the world it leaves. *)
Fixpoint gathered {W Tool Schema Json}
         (env : Collaborators W Tool Schema Json) (w : W)
         (tasks : list (ToolCall * string * string))
  : list (string * string * string) * W :=
  match tasks with
  | [] => ([], w)
  | (_, tool_name, tool_input_str) :: rest =>
      let (out, w1) := execute_tool_result env w tool_name tool_input_str in
      let (rs, w2) := gathered env w1 rest in
      ((tool_name, tool_input_str, out) :: rs, w2)
  end.

(** The state after the registry has seen [cs], in the world [w]. *)
Definition after_tools {W Json} (s : AgentState W Json)
           (cs : list ToolCall) (w : W) : AgentState W Json :=
  {| world := w; cost_tracker := cost_tracker s;
     tracer_log := tracer_log s; registry_log := registry_log s ++ cs |}.

(** The events the tracer records for a list of logged steps. *)
Definition logged_steps {Json} (trace_id : string)
           (steps : list (AgentStep.t Json)) : list (TraceEvent Json) :=
  map (Trace_step trace_id) steps.

(** *** Sequences of calls on a cost tracker *)

Inductive TrackerOp :=
| Op_start_query (query : string)
| Op_log_completion (c : Completion)
| Op_end_query.

Definition apply_op (t : CostTracker.t) (op : TrackerOp) : CostTracker.t :=
  match op with
  | Op_start_query query => CostTracker.start_query t query
  | Op_log_completion c =>
      CostTracker.log_completion t (c_step_number c) (c_response c)
                                 (c_is_tool_call c)
  | Op_end_query => CostTracker.end_query t
  end.

Definition apply_ops (t : CostTracker.t) (ops : list TrackerOp)
  : CostTracker.t :=
  fold_left apply_op ops t.

Definition is_end_query (op : TrackerOp) : bool :=
  match op with Op_end_query => true | _ => false end.

(** Every ledger the tracker holds, sealed or active, has consistent
    totals. *)
Definition tracker_consistent (t : CostTracker.t) : Prop :=
  Forall ledger_totals_ok (CostTracker.queries t)
  /\ forall q, CostTracker._current_query t = Some q -> ledger_totals_ok q.

(** The step a completion is recorded as, if it carries usage. *)
Definition recorded_step (c : Completion) : list StepCost.t :=
  match r_usage (c_response c) with
  | Some usage =>
      [StepCost.mk (c_step_number c)
         (match r_model (c_response c) with
          | Some m => m
          | None => "gpt-4o-mini"
          end)
         (prompt_tokens usage) (completion_tokens usage)
         (CostTracker.completion_cost (prompt_tokens usage)
                                      (completion_tokens usage))
         (c_is_tool_call c)]
  | None => []
  end.

(** The ledger for [query] after the completions [cs]. *)
Definition ledger_of (query : string) (cs : list Completion) : QueryCost.t :=
  fold_left QueryCost.add_step (flat_map recorded_step cs)
            (QueryCost.new query).

(** All the steps of all the sealed ledgers. *)
Definition all_steps (t : CostTracker.t) : list StepCost.t :=
  flat_map QueryCost.steps (CostTracker.queries t).

(** The calls an answer of the model asks for ([None] asks for none). *)
Definition requested_calls (response : Response) : list ToolCall :=
  match r_tool_calls response with
  | Some calls => calls
  | None => []
  end.

(** A tool-role message that answers one of [calls]. *)
Definition answers_one_of (calls : list ToolCall) (m : Message) : Prop :=
  msg_role m = role_tool
  /\ exists c, In c calls /\ msg_tool_call_id m = Some (tc_id c).

(** The task [dispatch_tool_calls] queues for a call. *)
Definition task_of (c : ToolCall) : ToolCall * string * string :=
  (c, tc_name c, tc_arguments c).

(** The three specialists as [main] makes them, with the default
    arguments of their factories. *)
Definition default_researcher {Tool} (registry : Registry Tool)
           (MODEL_NAME : option string) : Agent Tool :=
  create_researcher registry MODEL_NAME DEFAULT_MODEL RESEARCHER_MAX_STEPS.

Definition default_analyst {Tool} (registry : Registry Tool)
           (MODEL_NAME : option string) : Agent Tool :=
  create_analyst registry MODEL_NAME DEFAULT_MODEL ANALYST_MAX_STEPS.

Definition default_writer {Tool} (registry : Registry Tool)
           (MODEL_NAME : option string) : Agent Tool :=
  create_writer registry MODEL_NAME DEFAULT_MODEL WRITER_MAX_STEPS.

(** Argument text that the recording loop of lines 148-161 can take: it
    is empty (then [{}] is recorded) or [json.loads] accepts it. *)
Definition arguments_usable {W Tool Schema Json}
           (env : Collaborators W Tool Schema Json) (tool_input_str : string)
  : Prop :=
  truthy_str (Some tool_input_str) = false
  \/ exists j, json_loads env tool_input_str = Ok j.

(** The collaborators of [Scenario] with a model that never fails and
    gives the same answer to every call. *)
Definition answering_always (response : Response)
  : Collaborators nat Scenario.ToolImpl string Scenario.JsonValue :=
  let base := Scenario.collaborators [] Scenario.never Scenario.never in
  {| acompletion := fun w _ _ _ _ => (Ok response, S w);
     to_openai_schema := to_openai_schema base;
     check_tool_call := check_tool_call base;
     check_output_stagnation := check_output_stagnation base;
     get_tool := get_tool base;
     execute := execute base;
     json_loads := json_loads base;
     json_empty := json_empty base;
     start_trace := start_trace base |}.

Import Scenario.

(* ===================================================================== *)
(** ** The ledger                                                         *)
(* ===================================================================== *)

Lemma float_sum_snoc (l : list float) (x : float) :
  float_sum (l ++ [x]) = PrimFloat.add (float_sum l) x.
Proof. unfold float_sum. now rewrite fold_left_app. Qed.

Lemma int_sum_snoc (l : list Z) (x : Z) : int_sum (l ++ [x]) = int_sum l + x.
Proof. unfold int_sum. now rewrite fold_left_app. Qed.

Lemma new_ledger_totals_ok (query : string) :
  ledger_totals_ok (QueryCost.new query).
Proof. repeat split. Qed.

Lemma add_step_totals_ok (q : QueryCost.t) (step : StepCost.t) :
  ledger_totals_ok q -> ledger_totals_ok (QueryCost.add_step q step).
Proof.
  intros (Hc & Hi & Ho).
  unfold ledger_totals_ok, QueryCost.add_step.
  cbn [QueryCost.steps QueryCost.total_cost_usd QueryCost.total_input_tokens
       QueryCost.total_output_tokens].
  rewrite !map_app. cbn [map].
  rewrite float_sum_snoc, !int_sum_snoc.
  now rewrite Hc, Hi, Ho.
Qed.


Lemma start_query_ledger_open (t : CostTracker.t) (query : string) :
  ledger_open (CostTracker.queries t) query (CostTracker.start_query t query).
Proof.
  split; [reflexivity|]. exists (QueryCost.new query).
  repeat split.
Qed.

Lemma log_completion_ledger_open done query t step_number response flag :
  ledger_open done query t ->
  ledger_open done query
    (CostTracker.log_completion t step_number response flag).
Proof.
  intros (Hd & q & Hq & Hn & Hok).
  unfold CostTracker.log_completion. rewrite Hq.
  destruct (r_usage response) as [u|].
  - split; [exact Hd|]. eexists; split; [reflexivity|].
    split; [exact Hn|]. now apply add_step_totals_ok.
  - split; [exact Hd|]. now exists q.
Qed.

Lemma log_completions_ledger_open done query calls :
  forall t, ledger_open done query t ->
            ledger_open done query (log_completions t calls).
Proof.
  induction calls as [|c calls IH]; intros t Ht; cbn; [exact Ht|].
  apply IH. now apply log_completion_ledger_open.
Qed.

Lemma log_completions_app t cs1 cs2 :
  log_completions t (cs1 ++ cs2) = log_completions (log_completions t cs1) cs2.
Proof. unfold log_completions. apply fold_left_app. Qed.

(** C1. For every sequence of [log_completion] calls against the ledger
    that [start_query] opened, the ledger is still open after the calls and
    its three running totals are the sums, in recording order, of the
    matching fields of its steps (the sequence is arbitrary, so this holds
    after every call of it); and [add_step] obtains each new total by
    adding the step's value to the previous total. *)
Theorem ledger_totals_are_sums :
  forall (t : CostTracker.t) (query : string) (calls : list Completion),
    (exists q,
        CostTracker._current_query
          (log_completions (CostTracker.start_query t query) calls) = Some q
        /\ QueryCost.total_cost_usd q
           = float_sum (map StepCost.cost_usd (QueryCost.steps q))
        /\ QueryCost.total_input_tokens q
           = int_sum (map StepCost.input_tokens (QueryCost.steps q))
        /\ QueryCost.total_output_tokens q
           = int_sum (map StepCost.output_tokens (QueryCost.steps q)))
    /\ (forall (q : QueryCost.t) (step : StepCost.t),
           QueryCost.steps (QueryCost.add_step q step)
           = (QueryCost.steps q ++ [step])%list
           /\ QueryCost.total_cost_usd (QueryCost.add_step q step)
              = PrimFloat.add (QueryCost.total_cost_usd q)
                              (StepCost.cost_usd step)
           /\ QueryCost.total_input_tokens (QueryCost.add_step q step)
              = QueryCost.total_input_tokens q + StepCost.input_tokens step
           /\ QueryCost.total_output_tokens (QueryCost.add_step q step)
              = QueryCost.total_output_tokens q
                + StepCost.output_tokens step).
Proof.
  intros t query calls. split.
  - destruct (log_completions_ledger_open _ _ calls _
                (start_query_ledger_open t query))
      as (_ & q & Hq & _ & Hc & Hi & Ho).
    exists q. auto.
  - intros q step. repeat split.
Qed.


(* ===================================================================== *)
(** ** Frame rules: what a computation leaves alone                       *)
(* ===================================================================== *)

Section Frames.

Variables W Tool Schema Json : Type.
Variable env : Collaborators W Tool Schema Json.
Variable self : Agent Tool.

(** A relation between the state before and the state after that is a
    preorder and that the primitive updates respect. *)
Variable R : AgentState W Json -> AgentState W Json -> Prop.
Hypothesis R_refl : forall s, R s s.
Hypothesis R_trans : forall s1 s2 s3, R s1 s2 -> R s2 s3 -> R s1 s3.
Hypothesis R_world : forall s w, R s (set_world s w).
Hypothesis R_registry : forall s c, R s (note_registry s c).
Hypothesis R_tracer : forall s ev, R s (note_tracer s ev).
Hypothesis R_log_completion :
  forall s step_number response flag,
    R s (set_cost_tracker s
           (CostTracker.log_completion (cost_tracker s) step_number
                                       response flag)).

Lemma frames_ret {A} (a : A) : frames R (@ret W Json A a).
Proof. intros s. apply R_refl. Qed.

Lemma frames_raise {A} (e : string) : frames R (@raise W Json A e).
Proof. intros s. apply R_refl. Qed.

Lemma frames_of_outcome {A} (o : outcome A) :
  frames R (@of_outcome W Json A o).
Proof. intros s. apply R_refl. Qed.

Lemma frames_ask {A} (f : W -> A * W) : frames R (@ask W Json A f).
Proof.
  intros s. unfold ask. destruct (f (world s)) as [a w]. apply R_world.
Qed.

Lemma frames_ask_raising {A} (f : W -> outcome A * W) :
  frames R (@ask_raising W Json A f).
Proof.
  intros s. unfold ask_raising. destruct (f (world s)) as [o w].
  apply R_world.
Qed.

Lemma frames_registry_get_tool tool_call tool_name :
  frames R (registry_get_tool env tool_call tool_name).
Proof. intros s. apply R_registry. Qed.

Lemma frames_tell_tracer (ev : TraceEvent Json) :
  frames R (@tell_tracer W Json ev).
Proof. intros s. apply R_tracer. Qed.

Lemma frames_log_completion step_number response flag :
  frames R (@on_cost_tracker W Json
    (fun t => CostTracker.log_completion t step_number response flag)).
Proof. intros s. apply R_log_completion. Qed.

Lemma frames_bind {A B} (m : M W Json A) (k : A -> M W Json B) :
  frames R m -> (forall a, frames R (k a)) -> frames R (bind m k).
Proof.
  intros Hm Hk s. unfold bind.
  pose proof (Hm s) as H1.
  destruct (m s) as [[a|e] s1]; cbn [snd] in H1; [|exact H1].
  apply R_trans with s1; [exact H1 | apply Hk].
Qed.

Lemma frames_try_except {A} (m : M W Json A) (h : string -> M W Json A) :
  frames R m -> (forall e, frames R (h e)) -> frames R (try_except m h).
Proof.
  intros Hm Hh s. unfold try_except.
  pose proof (Hm s) as H1.
  destruct (m s) as [[a|e] s1]; cbn [snd] in H1; [exact H1|].
  apply R_trans with s1; [exact H1 | apply Hh].
Qed.

Create HintDb frames discriminated.
Hint Resolve frames_ret frames_raise frames_of_outcome frames_ask
     frames_ask_raising frames_registry_get_tool : frames.

(** Peel binds and handlers, split on what the code branches on, and
    close the leaves from the hint base. *)
Ltac frame_steps :=
  repeat first
    [ solve [auto with frames]
    | progress cbv zeta
    | simple apply frames_bind; [|intros ?]
    | simple apply frames_try_except; [|intros ?]
    | match goal with
      | |- frames _ (match ?x with _ => _ end) => destruct x
      | |- frames _ (if ?b then _ else _) => destruct b
      end ].

Lemma frames_execute_tool tool_call tool_name tool_input_str :
  frames R (_execute_tool env tool_call tool_name tool_input_str).
Proof. unfold _execute_tool. frame_steps. Qed.

Lemma frames_dispatch tool_calls :
  forall messages tasks,
    frames R (dispatch_tool_calls env tool_calls messages tasks).
Proof.
  induction tool_calls as [|c rest IH]; intros messages tasks;
    cbn [dispatch_tool_calls]; frame_steps.
Qed.

Hint Resolve frames_execute_tool frames_dispatch : frames.

Lemma frames_gather tasks : frames R (gather env tasks).
Proof.
  induction tasks as [|[[c n] a] rest IH]; cbn [gather]; frame_steps.
Qed.

Lemma frames_record pairs :
  forall step messages,
    frames R (record_tool_results env pairs step messages).
Proof.
  induction pairs as [|[c [[n a] out]] rest IH]; intros step messages;
    cbn [record_tool_results]; frame_steps.
Qed.

Hint Resolve frames_gather frames_record frames_tell_tracer
     frames_log_completion : frames.

Lemma frames_loop_body trace_id step_number messages :
  frames R (loop_body env self trace_id step_number messages).
Proof. unfold loop_body. frame_steps. Qed.

Hint Resolve frames_loop_body : frames.

Lemma frames_agent_loop trace_id range :
  forall step_number messages,
    frames R (agent_loop env self trace_id range step_number messages).
Proof.
  induction range as [|n rest IH]; intros step_number messages;
    cbn [agent_loop]; frame_steps.
Qed.

End Frames.

Arguments frames_dispatch {W Tool Schema Json}.
Arguments frames_gather {W Tool Schema Json}.
Arguments frames_record {W Tool Schema Json}.
Arguments frames_execute_tool {W Tool Schema Json}.
Arguments frames_loop_body {W Tool Schema Json}.
Arguments frames_agent_loop {W Tool Schema Json}.

Section FrameInstances.

Variables W Tool Schema Json : Type.
Variable env : Collaborators W Tool Schema Json.
Variable self : Agent Tool.

Lemma cost_logged_refl (s : AgentState W Json) : cost_logged s s.
Proof. now exists []. Qed.

Lemma cost_logged_trans (s1 s2 s3 : AgentState W Json) :
  cost_logged s1 s2 -> cost_logged s2 s3 -> cost_logged s1 s3.
Proof.
  intros [cs1 H1] [cs2 H2]. exists (cs1 ++ cs2)%list.
  now rewrite H2, H1, log_completions_app.
Qed.

Lemma cost_logged_agent_loop trace_id range step_number messages :
  frames cost_logged
         (agent_loop env self trace_id range step_number messages).
Proof.
  apply frames_agent_loop.
  - apply cost_logged_refl.
  - apply cost_logged_trans.
  - intros s w. now exists [].
  - intros s c. now exists [].
  - intros s ev. now exists [].
  - intros s n r b.
    now exists [{| c_step_number := n; c_response := r;
                   c_is_tool_call := b |}].
Qed.

Lemma tools_only_refl (s : AgentState W Json) : tools_only s s.
Proof. now split. Qed.

Lemma tools_only_trans (s1 s2 s3 : AgentState W Json) :
  tools_only s1 s2 -> tools_only s2 s3 -> tools_only s1 s3.
Proof. intros [H1 H2] [H3 H4]. split; congruence. Qed.

Lemma tools_only_dispatch tool_calls messages tasks :
  frames tools_only (dispatch_tool_calls env tool_calls messages tasks).
Proof.
  apply frames_dispatch;
    first [ exact tools_only_refl | exact tools_only_trans
          | intros; now split ].
Qed.

Lemma tools_only_gather tasks : frames tools_only (gather env tasks).
Proof.
  apply frames_gather;
    first [ exact tools_only_refl | exact tools_only_trans
          | intros; now split ].
Qed.

Lemma tools_only_record pairs step messages :
  frames tools_only (record_tool_results env pairs step messages).
Proof.
  apply frames_record;
    first [ exact tools_only_refl | exact tools_only_trans
          | intros; now split ].
Qed.

End FrameInstances.

Arguments cost_logged_agent_loop {W Tool Schema Json}.
Arguments tools_only_dispatch {W Tool Schema Json}.
Arguments tools_only_gather {W Tool Schema Json}.
Arguments tools_only_record {W Tool Schema Json}.

(* ===================================================================== *)
(** ** [run] as a whole                                                   *)
(* ===================================================================== *)

Section RunFacts.

Variables W Tool Schema Json : Type.
Variable env : Collaborators W Tool Schema Json.
Variable self : Agent Tool.


Lemma run_open_opened (user_query : string) (s : AgentState W Json) :
  run_open env self user_query s
  = (Ok (fst (opened env self user_query s)),
     snd (opened env self user_query s)).
Proof.
  unfold run_open, opened, bind, ask, tell_tracer, on_cost_tracker, ret.
  now destruct (start_trace env (world s) (agent_name self) user_query
                            (model self)).
Qed.

(** [run] in terms of what the loop does from the opened state. *)
Lemma run_unfold (user_query : string) (s : AgentState W Json) :
  let tid := fst (opened env self user_query s) in
  let s1 := snd (opened env self user_query s) in
  run env self user_query s
  = match run_loop env self tid user_query s1 with
    | (Ok (step_number, exit), s2) =>
        let final_answer :=
          match final_answer_of exit with
          | Some a => a
          | None => max_steps_answer self
          end in
        (Ok {| answer := final_answer; trace_id := tid;
               steps := Some step_number; status := "completed" |},
         {| world := world s2;
            cost_tracker := CostTracker.end_query (cost_tracker s2);
            tracer_log :=
              tracer_log s2 ++ [Trace_end tid final_answer "completed" None];
            registry_log := registry_log s2 |})
    | (Raised e, s2) =>
        (Ok {| answer := "Error: " ++ e; trace_id := tid;
               steps := None; status := "error" |},
         {| world := world s2;
            cost_tracker := CostTracker.end_query (cost_tracker s2);
            tracer_log :=
              tracer_log s2 ++ [Trace_end tid EmptyString "error" (Some e)];
            registry_log := registry_log s2 |})
    end.
Proof.
  intros tid s1. unfold run.
  unfold bind at 1. rewrite run_open_opened. fold tid s1.
  unfold try_except, run_try. unfold bind at 1.
  destruct (run_loop env self tid user_query s1) as [[[k exit]|e] s2];
    reflexivity.
Qed.

Lemma end_query_ledger_open done query t :
  ledger_open done query t ->
  exists ledger,
    CostTracker._current_query t = Some ledger
    /\ QueryCost.query ledger = query
    /\ CostTracker.end_query t = CostTracker.mk (done ++ [ledger]) None.
Proof.
  intros (Hd & q & Hq & Hn & _). exists q. repeat split; auto.
  unfold CostTracker.end_query. now rewrite Hq, Hd.
Qed.

End RunFacts.



(** C10. Every call of [run] returns, and in the state it leaves the cost
    tracker has no active ledger, and its completed list is the list from
    before the call followed by one ledger: the one [start_query] opened
    for this run's query, with the completions logged during the run. *)
Theorem run_seals_its_ledger :
  forall (W Tool Schema Json : Type) (env : Collaborators W Tool Schema Json)
         (self : Agent Tool) (user_query : string) (s : AgentState W Json),
  exists (r : RunResult) (s' : AgentState W Json) (ledger : QueryCost.t)
         (logged : list Completion),
    run env self user_query s = (Ok r, s')
    /\ (status r = "completed" \/ status r = "error")
    /\ CostTracker._current_query (cost_tracker s') = None
    /\ CostTracker.queries (cost_tracker s')
       = (CostTracker.queries (cost_tracker s) ++ [ledger])%list
    /\ QueryCost.query ledger = user_query
    /\ CostTracker._current_query
         (log_completions
            (CostTracker.start_query (cost_tracker s) user_query) logged)
       = Some ledger.
Proof.
  intros W Tool Schema Json env self user_query s.
  pose proof (run_unfold _ _ _ _ env self user_query s) as Hrun.
  cbv zeta in Hrun.
  destruct (cost_logged_agent_loop env self
              (fst (opened env self user_query s))
              (py_range_1 (max_steps self)) 0
              (initial_messages self user_query)
              (snd (opened env self user_query s))) as [logged Hct].
  fold (run_loop env self (fst (opened env self user_query s)) user_query)
    in Hct.
  assert (Hs1 : cost_tracker (snd (opened env self user_query s))
                = CostTracker.start_query (cost_tracker s) user_query).
  { unfold opened. now destruct (start_trace env (world s) _ _ _). }
  rewrite Hs1 in Hct.
  pose proof (log_completions_ledger_open _ _ logged _
                (start_query_ledger_open (cost_tracker s) user_query)) as Hopen.
  rewrite <- Hct in Hopen.
  destruct (end_query_ledger_open _ _ _ Hopen) as (ledger & Hcur & Hq & Hend).
  destruct (run_loop env self (fst (opened env self user_query s)) user_query
                     (snd (opened env self user_query s)))
    as [[[k exit]|e] s2]; cbn [snd] in *;
    eexists; eexists; exists ledger, logged;
    (split; [exact Hrun|]); cbn [status cost_tracker]; rewrite Hend;
    cbn [CostTracker._current_query CostTracker.queries];
    rewrite <- Hct; auto 10.
Qed.

(* ===================================================================== *)
(** ** The tool phase of a step                                           *)
(* ===================================================================== *)

Section ToolPhase.

Variables W Tool Schema Json : Type.
Variable env : Collaborators W Tool Schema Json.

Lemma execute_tool_eq tool_call tool_name tool_input_str
      (s : AgentState W Json) :
  _execute_tool env tool_call tool_name tool_input_str s
  = (Ok (tool_name, tool_input_str,
         fst (execute_tool_result env (world s) tool_name tool_input_str)),
     after_tools s [tool_call]
       (snd (execute_tool_result env (world s) tool_name tool_input_str))).
Proof.
  unfold _execute_tool, execute_tool_result, bind, try_except,
    registry_get_tool, of_outcome, ask_raising, ret, after_tools.
  cbn [world cost_tracker tracer_log registry_log].
  destruct (get_tool env (world s) tool_name) as [t|]; [|reflexivity].
  destruct (json_loads env tool_input_str) as [j|e]; [|reflexivity].
  unfold set_world. cbn.
  destruct (execute env (world s) t j) as [[out|e] w1]; reflexivity.
Qed.

Lemma after_tools_nil (s : AgentState W Json) :
  after_tools s [] (world s) = s.
Proof. destruct s. unfold after_tools. cbn. now rewrite app_nil_r. Qed.

Lemma gather_eq tasks :
  forall s : AgentState W Json,
    gather env tasks s
    = (Ok (fst (gathered env (world s) tasks)),
       after_tools s (map task_call tasks)
                   (snd (gathered env (world s) tasks))).
Proof.
  induction tasks as [|[[c n] a] rest IH]; intros s.
  - cbn. unfold ret. now rewrite after_tools_nil.
  - cbn [gather gathered map]. unfold bind at 1. rewrite execute_tool_eq.
    destruct (execute_tool_result env (world s) n a) as [out w1].
    cbn [fst snd]. unfold bind at 1. rewrite IH.
    cbn [world after_tools]. destruct (gathered env w1 rest) as [rs w2].
    cbn [fst snd]. unfold ret, after_tools.
    cbn [world cost_tracker tracer_log registry_log task_call fst].
    now rewrite <- app_assoc.
Qed.

Lemma dispatch_eq tool_calls :
  forall messages tasks (s : AgentState W Json),
    let judged :=
      combine tool_calls (fst (loop_verdicts env (world s) tool_calls)) in
    dispatch_tool_calls env tool_calls messages tasks s
    = (Ok ((messages ++ warnings judged)%list, (tasks ++ queued judged)%list),
       set_world s (snd (loop_verdicts env (world s) tool_calls))).
Proof.
  induction tool_calls as [|c rest IH]; intros messages tasks s judged.
  - subst judged. cbn. unfold ret, set_world. rewrite !app_nil_r.
    now destruct s.
  - subst judged. cbn [dispatch_tool_calls loop_verdicts].
    unfold bind at 1, ask.
    destruct (check_tool_call env (world s) (tc_name c) (tc_arguments c))
      as [v w1].
    pose proof (IH (messages ++ [loop_warning c v])%list tasks
                   (set_world s w1)) as IHflag.
    pose proof (IH messages
                   (tasks ++ [(c, tc_name c, tc_arguments c)])%list
                   (set_world s w1)) as IHpass.
    cbv zeta in IHflag, IHpass. cbn [world set_world] in IHflag, IHpass.
    destruct (loop_verdicts env w1 rest) as [vs w2].
    cbn [fst snd combine] in *. unfold warnings, queued in *.
    cbn [flat_map fst snd].
    destruct (is_looping v).
    + rewrite IHflag. unfold set_world; cbn. now rewrite <- app_assoc.
    + rewrite IHpass. unfold set_world; cbn. now rewrite <- app_assoc.
Qed.

Lemma loop_verdicts_length tool_calls :
  forall w, List.length (fst (loop_verdicts env w tool_calls))
            = List.length tool_calls.
Proof.
  induction tool_calls as [|c rest IH]; intros w; cbn; [reflexivity|].
  destruct (check_tool_call env w (tc_name c) (tc_arguments c)) as [v w1].
  specialize (IH w1). destruct (loop_verdicts env w1 rest) as [vs w2].
  cbn in *. now rewrite IH.
Qed.

Lemma combine_split_at {A B} (l : list A) (l' : list B) :
  forall i a b,
    nth_error l i = Some a -> nth_error l' i = Some b ->
    combine l l'
    = (firstn i (combine l l') ++ (a, b) :: skipn (S i) (combine l l'))%list.
Proof.
  revert l'. induction l as [|x l IH]; intros l' i a b Ha Hb.
  - now destruct i.
  - destruct l' as [|y l']; [now destruct i|].
    destruct i as [|i]; cbn in Ha, Hb.
    + now inversion Ha; inversion Hb.
    + cbn [combine firstn skipn app]. f_equal. now apply IH.
Qed.

End ToolPhase.

Arguments execute_tool_eq {W Tool Schema Json}.
Arguments gather_eq {W Tool Schema Json}.
Arguments dispatch_eq {W Tool Schema Json}.
Arguments loop_verdicts_length {W Tool Schema Json}.

Lemma map_fst_combine_same_length {A B} (l : list A) :
  forall l' : list B,
    List.length l' = List.length l -> map fst (combine l l') = l.
Proof.
  induction l as [|x l IH]; intros [|y l'] H; cbn in *; try easy.
  f_equal. apply IH. lia.
Qed.

(** C7. Take the call at any position [i] of the requested calls and let
    the loop detector flag it when it is consulted. Then the dispatch loop
    appends, between the warnings of the calls before it and those of the
    calls after it, one tool-role message that carries the loop marker and
    the id of that call; it queues tasks for calls before [i] and after
    [i] only, so it goes on to the calls that follow; it reaches the
    registry for no call at all; and [gather] then reaches the registry
    exactly for the queued tasks, none of which is at position [i]. *)
Theorem flagged_call_is_not_executed :
  forall (W Tool Schema Json : Type) (env : Collaborators W Tool Schema Json)
         (tool_calls : list ToolCall) (messages : list Message)
         (s : AgentState W Json) (i : nat) (c : ToolCall) (v : LoopResult),
    nth_error tool_calls i = Some c ->
    nth_error (fst (loop_verdicts env (world s) tool_calls)) i = Some v ->
    is_looping v = true ->
    let judged :=
      combine tool_calls (fst (loop_verdicts env (world s) tool_calls)) in
    let before := firstn i judged in
    let after := skipn (S i) judged in
    exists s1 results s2,
      dispatch_tool_calls env tool_calls messages [] s
      = (Ok ((messages ++ warnings before ++ [loop_warning c v]
                       ++ warnings after)%list,
             (queued before ++ queued after)%list), s1)
      /\ registry_log s1 = registry_log s
      /\ gather env (queued before ++ queued after) s1 = (Ok results, s2)
      /\ registry_log s2
         = (registry_log s ++ map task_call (queued before)
                         ++ map task_call (queued after))%list
      /\ map fst before = firstn i tool_calls
      /\ map fst after = skipn (S i) tool_calls
      /\ loop_warning c v
         = tool_message (tc_id c) (tc_name c) (LOOP_MARKER ++ message v).
Proof.
  intros W Tool Schema Json env tool_calls messages s i c v Hc Hv Hflag
         judged before after.
  pose proof (dispatch_eq env tool_calls messages [] s) as Hd.
  cbv zeta in Hd. fold judged in Hd.
  assert (Hsplit : judged = (before ++ (c, v) :: after)%list)
    by (apply combine_split_at; assumption).
  assert (Hw : warnings judged
               = (warnings before ++ [loop_warning c v] ++ warnings after)%list).
  { rewrite Hsplit. unfold warnings. rewrite flat_map_app.
    cbn [flat_map fst snd]. now rewrite Hflag. }
  assert (Hq : queued judged = (queued before ++ queued after)%list).
  { rewrite Hsplit. unfold queued. rewrite flat_map_app.
    cbn [flat_map fst snd]. now rewrite Hflag. }
  rewrite Hw, Hq in Hd. cbn [app] in Hd.
  eexists; eexists; eexists.
  split; [exact Hd|]. split; [reflexivity|].
  split; [apply gather_eq|].
  split; [cbn [after_tools registry_log set_world]; now rewrite map_app|].
  assert (Hfst : map fst judged = tool_calls)
    by (apply map_fst_combine_same_length, loop_verdicts_length).
  split; [|split; [|reflexivity]].
  - unfold before. now rewrite <- firstn_map, Hfst.
  - unfold after. now rewrite <- skipn_map, Hfst.
Qed.

(** C7 at work: of two requested calls the first is flagged; only the
    second reaches the registry. *)
Lemma flagged_call_is_not_executed_witness :
  exists s1 results s2,
    dispatch_tool_calls
      (collaborators [] (String.eqb "search") never)
      [call "call_1" "search" "{}"; call "call_2" "calculator" "{}"]
      [] [] fresh
    = (Ok ([loop_warning (call "call_1" "search" "{}")
              {| is_looping := true; strategy := "exact_match";
                 message := "Repeated call to search" |}],
           [(call "call_2" "calculator" "{}", "calculator", "{}")]), s1)
    /\ registry_log s1 = []
    /\ gather (collaborators [] (String.eqb "search") never)
              [(call "call_2" "calculator" "{}", "calculator", "{}")] s1
       = (Ok results, s2)
    /\ registry_log s2 = [call "call_2" "calculator" "{}"].
Proof.
  destruct (flagged_call_is_not_executed nat ToolImpl string JsonValue
              (collaborators [] (String.eqb "search") never)
              [call "call_1" "search" "{}"; call "call_2" "calculator" "{}"]
              [] fresh 0%nat (call "call_1" "search" "{}")
              {| is_looping := true; strategy := "exact_match";
                 message := "Repeated call to search" |}
              eq_refl eq_refl eq_refl)
    as (s1 & results & s2 & Hd & Hr1 & Hg & Hr2 & _).
  exists s1, results, s2. repeat split; assumption.
Defined.

(* ===================================================================== *)
(** ** The result of [run]                                                *)
(* ===================================================================== *)

(** Against C8 as stated: when the model call fails, the result of [run]
    has status ["error"]
    and no ["steps"] key: not every result of [run] has all four fields. *)
Lemma error_result_has_no_steps :
  exists r s',
    run (collaborators [] never never) (agent 10) "What is 2+2?" fresh
    = (Ok r, s')
    /\ status r = "error"
    /\ answer r = "Error: Connection error."
    /\ ~ has_all_four_fields r.
Proof.
  eexists; eexists. split; [vm_compute; reflexivity|].
  cbn [status answer]. repeat split.
  intros [k Hk]. discriminate Hk.
Qed.

(** C8, as the code has it. [run] returns a result for every input. When
    the [try] block ends without a fault the result is the block's: its
    status is ["completed"] and it has all four fields. When a fault
    [e] escapes the block the result has status ["error"], the trace id,
    the answer ["Error: "] followed by the fault's text, and no ["steps"]
    field. *)
Theorem run_result_fields :
  forall (W Tool Schema Json : Type) (env : Collaborators W Tool Schema Json)
         (self : Agent Tool) (user_query : string) (s : AgentState W Json),
    let tid := fst (opened env self user_query s) in
    let s1 := snd (opened env self user_query s) in
    exists r s',
      run env self user_query s = (Ok r, s')
      /\ trace_id r = tid
      /\ match run_try env self tid user_query s1 with
         | (Ok r', _) =>
             r = r' /\ status r = "completed" /\ has_all_four_fields r
         | (Raised e, _) =>
             r = {| answer := "Error: " ++ e; trace_id := tid;
                    steps := None; status := "error" |}
         end.
Proof.
  intros W Tool Schema Json env self user_query s tid s1.
  pose proof (run_unfold _ _ _ _ env self user_query s) as Hrun.
  cbv zeta in Hrun. fold tid s1 in Hrun.
  unfold run_try. unfold bind at 1.
  destruct (run_loop env self tid user_query s1) as [[[k exit]|e] s2].
  - eexists; eexists. split; [exact Hrun|].
    cbn. repeat split. now exists k.
  - eexists; eexists. split; [exact Hrun|]. now cbn.
Qed.

(** C9. Whichever way the loop is left without a fault, the status is the
    one string ["completed"]. When the loop is left because [range] ran
    out, the answer is the max-steps text; when it is left by the
    stagnation [break], the answer is the stagnation text made from the
    detector's message; and the step count is the loop's. *)
Theorem synthetic_answers_have_status_completed :
  forall (W Tool Schema Json : Type) (env : Collaborators W Tool Schema Json)
         (self : Agent Tool) (user_query : string) (s : AgentState W Json)
         (step_number : Z) (exit : LoopExit) (s2 : AgentState W Json),
    run_loop env self (fst (opened env self user_query s)) user_query
             (snd (opened env self user_query s))
    = (Ok (step_number, exit), s2) ->
    exists r s',
      run env self user_query s = (Ok r, s')
      /\ status r = "completed"
      /\ steps r = Some step_number
      /\ (exit = Exit_exhausted -> answer r = max_steps_answer self)
      /\ (forall m, exit = Exit_stagnation m ->
                    answer r = "Agent stopped due to stagnation: " ++ m)
      /\ (forall a, exit = Exit_final (Some a) -> answer r = a).
Proof.
  intros W Tool Schema Json env self user_query s step_number exit s2 Hloop.
  pose proof (run_unfold _ _ _ _ env self user_query s) as Hrun.
  cbv zeta in Hrun. rewrite Hloop in Hrun.
  eexists; eexists. split; [exact Hrun|].
  cbn [status steps answer].
  repeat split; intros; subst exit; reflexivity.
Qed.

(** C9 at work: the detector flags the reasoning text of the first step;
    the run stops there with status ["completed"]. *)
Lemma synthetic_answers_have_status_completed_witness :
  exists r s',
    run (collaborators
           [asks (Some "Let me think.") [call "call_1" "calculator" "{}"]]
           never (String.eqb "Let me think."))
        (agent 10) "What is 2+2?" fresh
    = (Ok r, s')
    /\ status r = "completed"
    /\ steps r = Some 1
    /\ answer r = "Agent stopped due to stagnation: Same output repeated".
Proof.
  destruct (synthetic_answers_have_status_completed
              nat ToolImpl string JsonValue
              (collaborators
                 [asks (Some "Let me think.") [call "call_1" "calculator" "{}"]]
                 never (String.eqb "Let me think."))
              (agent 10) "What is 2+2?" fresh 1
              (Exit_stagnation "Same output repeated")
              {| world := 1%nat;
                 cost_tracker :=
                   CostTracker.log_completion
                     (CostTracker.start_query CostTracker.new "What is 2+2?")
                     1
                     {| r_content := Some "Let me think.";
                        r_tool_calls :=
                          Some [call "call_1" "calculator" "{}"];
                        r_usage := usage_1000_500;
                        r_model := Some "gemini-1.5-flash" |} false;
                 tracer_log :=
                   [Trace_start "ObservableAgent" "What is 2+2?"
                                "gemini/gemini-1.5-flash" "trace-1";
                    Trace_step "trace-1"
                      {| AgentStep.step_number := 1;
                         AgentStep.reasoning := Some "Let me think.";
                         AgentStep.tool_calls :=
                           [ToolCallRecord.mk "calculator" (Json_object [])
                                              "4"];
                         AgentStep.input_tokens := 1000;
                         AgentStep.output_tokens := 500;
                         AgentStep.cost_usd := 0.00045%float |}];
                 registry_log := [call "call_1" "calculator" "{}"] |}
              ltac:(vm_compute; reflexivity))
    as (r & s' & Hrun & Hstatus & Hsteps & _ & Hstag & _).
  exists r, s'. repeat split; try assumption.
  now apply Hstag.
Defined.

(* ===================================================================== *)
(** ** One step, and the loop over the steps                              *)
(* ===================================================================== *)

Lemma last_cons_any_default {A} (l : list A) :
  forall x d d', last (x :: l) d = last (x :: l) d'.
Proof.
  induction l as [|y l IH]; intros x d d'; [reflexivity|].
  change (last (y :: l) d = last (y :: l) d'). apply IH.
Qed.

Lemma py_range_1_last (n : Z) : 0 <= n -> last (py_range_1 n) 0 = n.
Proof.
  intros Hn. unfold py_range_1.
  destruct (Z.to_nat n) as [|k] eqn:Hk.
  - cbn. lia.
  - replace (S k) with (k + 1)%nat by lia.
    rewrite seq_app, map_app. cbn [seq map]. rewrite last_last. lia.
Qed.

Lemma py_range_1_cons (n : Z) :
  0 < n -> exists rest, py_range_1 n = 1 :: rest.
Proof.
  intros Hn. unfold py_range_1.
  destruct (Z.to_nat n) as [|k] eqn:Hk; [lia|].
  cbn [seq map]. now eexists.
Qed.

Section StepFacts.

Variables W Tool Schema Json : Type.
Variable env : Collaborators W Tool Schema Json.
Variable self : Agent Tool.

Lemma record_keeps_step_number pairs :
  forall step messages (s : AgentState W Json) step' messages' s',
    record_tool_results env pairs step messages s
    = (Ok (step', messages'), s') ->
    AgentStep.step_number step' = AgentStep.step_number step.
Proof.
  induction pairs as [|[c [[n a] out]] rest IH];
    intros step messages s step' messages' s' H.
  - cbn in H. unfold ret in H. now inversion H.
  - cbn [record_tool_results] in H. unfold bind at 1 in H.
    destruct ((if truthy_str (Some a)
               then of_outcome (json_loads env a)
               else ret (json_empty env)) s) as [[j|e] s1];
      [|discriminate H].
    apply IH in H. exact H.
Qed.

(** The step with the given answer and no tool calls (lines 110-114). *)
Lemma loop_body_final trace_id step_number messages
      (s : AgentState W Json) response w1 :
  acompletion env (world s) (model self) messages
    (tools_argument (map (to_openai_schema env) (tools self)))
    (tool_choice_argument (map (to_openai_schema env) (tools self)))
  = (Ok response, w1) ->
  truthy_list (r_tool_calls response) = false ->
  loop_body env self trace_id step_number messages s
  = (Ok (Break_final (r_content response),
         (messages ++ [assistant_message (r_content response)
                                         (r_tool_calls response)])%list),
     {| world := w1;
        cost_tracker :=
          CostTracker.log_completion (cost_tracker s) step_number
                                     response false;
        tracer_log :=
          tracer_log s
          ++ [Trace_step trace_id (new_step step_number response)];
        registry_log := registry_log s |}).
Proof.
  intros Hllm Hnone. unfold loop_body. cbv zeta.
  unfold bind at 1, ask_raising. rewrite Hllm.
  unfold bind at 1, on_cost_tracker.
  destruct (r_tool_calls response) as [[|c cs]|]; try discriminate Hnone;
    reflexivity.
Qed.

(** When every answer of the model asks for tools and the detector never
    reports stagnation, a step that does not fault goes on to the next
    one, and tells the tracer of exactly one step record, its own. *)
Lemma loop_body_goes_on trace_id step_number messages
      (s : AgentState W Json) ctl messages' s' :
  (forall w m msgs sch ch r w',
      acompletion env w m msgs sch ch = (Ok r, w') ->
      truthy_list (r_tool_calls r) = true) ->
  (forall w text, is_looping (fst (check_output_stagnation env w text))
                  = false) ->
  loop_body env self trace_id step_number messages s
  = (Ok (ctl, messages'), s') ->
  ctl = Next
  /\ exists step,
      tracer_log s' = (tracer_log s ++ [Trace_step trace_id step])%list
      /\ AgentStep.step_number step = step_number.
Proof.
  intros Htools Hstag. unfold loop_body. cbv zeta.
  unfold bind at 1, ask_raising.
  destruct (acompletion env (world s) (model self) messages _ _)
    as [[r|e] w1] eqn:Hllm; [|discriminate].
  apply Htools in Hllm.
  unfold bind at 1, on_cost_tracker.
  destruct (r_tool_calls r) as [[|c cs]|]; try discriminate Hllm.
  set (s1 := {| world := world (set_world s w1);
                cost_tracker := _; tracer_log := _; registry_log := _ |}).
  unfold bind at 1.
  pose proof (tools_only_dispatch env (c :: cs)
                (messages ++ [assistant_message (r_content r)
                                                (Some (c :: cs))])%list
                [] s1) as [_ Hd].
  destruct (dispatch_tool_calls env (c :: cs) _ [] s1)
    as [[[m1 tasks]|e] s2]; [|discriminate].
  cbn [snd] in Hd. unfold bind at 1.
  pose proof (tools_only_gather env tasks s2) as [_ Hg].
  destruct (gather env tasks s2) as [[results|e] s3]; [|discriminate].
  cbn [snd] in Hg. unfold bind at 1.
  pose proof (tools_only_record env (combine (c :: cs) results)
                (new_step step_number r) m1 s3) as [_ Hr].
  destruct (record_tool_results env (combine (c :: cs) results)
              (new_step step_number r) m1 s3)
    as [[[step m2]|e] s4] eqn:Hrec; [|discriminate].
  cbn [snd] in Hr. apply record_keeps_step_number in Hrec.
  unfold bind at 1, tell_tracer.
  assert (Hlog : (tracer_log s4 ++ [Trace_step trace_id step])%list
                 = (tracer_log s ++ [Trace_step trace_id step])%list)
    by (rewrite Hr, Hg, Hd; reflexivity).
  assert (Hnum : AgentStep.step_number step = step_number).
  { rewrite Hrec. unfold new_step. now destruct (r_usage r). }
  destruct (truthy_str (r_content r)).
  - unfold bind, ask.
    pose proof (Hstag (world s4)
                  (match r_content r with Some x => x | None => EmptyString end))
      as Hno.
    cbn [world].
    destruct (check_output_stagnation env (world s4) _) as [v w5].
    cbn [fst] in Hno. rewrite Hno. unfold ret. intros H; inversion H; subst.
    split; [reflexivity|]. exists step. now split.
  - unfold ret. intros H; inversion H; subst.
    split; [reflexivity|]. exists step. now split.
Qed.

Lemma agent_loop_exhausts trace_id range :
  (forall w m msgs sch ch r w',
      acompletion env w m msgs sch ch = (Ok r, w') ->
      truthy_list (r_tool_calls r) = true) ->
  (forall w text, is_looping (fst (check_output_stagnation env w text))
                  = false) ->
  forall step_number messages (s : AgentState W Json) k exit s',
    agent_loop env self trace_id range step_number messages s
    = (Ok (k, exit), s') ->
    exit = Exit_exhausted
    /\ k = last range step_number
    /\ exists recorded,
        tracer_log s' = (tracer_log s ++ logged_steps trace_id recorded)%list
        /\ map AgentStep.step_number recorded = range.
Proof.
  intros Htools Hstag.
  induction range as [|n rest IH]; intros step_number messages s k exit s' H.
  - cbn in H. unfold ret in H. inversion H; subst.
    repeat split. exists []. cbn. now rewrite app_nil_r.
  - cbn [agent_loop] in H. unfold bind at 1 in H.
    destruct (loop_body env self trace_id n messages s)
      as [[[ctl m1]|e] s1] eqn:Hbody; [|discriminate H].
    destruct (loop_body_goes_on _ _ _ _ _ _ _ Htools Hstag Hbody)
      as (-> & step & Hlog & Hnum).
    apply IH in H. destruct H as (-> & -> & recorded & Hlog' & Hnums).
    split; [reflexivity|]. split.
    + destruct rest as [|z rest']; [reflexivity|].
      change (last (z :: rest') n = last (z :: rest') step_number).
      apply last_cons_any_default.
    + exists (step :: recorded). split.
      * rewrite Hlog', Hlog. cbn. now rewrite <- app_assoc.
      * cbn. now rewrite Hnum, Hnums.
Qed.

End StepFacts.

Arguments loop_body_final {W Tool Schema Json}.
Arguments agent_loop_exhausts {W Tool Schema Json}.

(* ===================================================================== *)
(** ** Runs that end in the first step, and runs that use every step      *)
(* ===================================================================== *)

(** A first answer without tool calls ends the run in one step with
    status ["completed"]; the answer is the content when there is one,
    and the max-steps text when the content is [None]. *)
Lemma first_turn_without_tool_calls
      (W Tool Schema Json : Type) (env : Collaborators W Tool Schema Json)
      (self : Agent Tool) (user_query : string) (s : AgentState W Json)
      (response : Response) (w1 : W) :
  0 < max_steps self ->
  acompletion env (world (snd (opened env self user_query s))) (model self)
    (initial_messages self user_query)
    (tools_argument (map (to_openai_schema env) (tools self)))
    (tool_choice_argument (map (to_openai_schema env) (tools self)))
  = (Ok response, w1) ->
  truthy_list (r_tool_calls response) = false ->
  exists s',
    run env self user_query s
    = (Ok {| answer := match r_content response with
                       | Some a => a
                       | None => max_steps_answer self
                       end;
             trace_id := fst (opened env self user_query s);
             steps := Some 1; status := "completed" |}, s').
Proof.
  intros Hmax Hllm Hnone.
  pose proof (run_unfold _ _ _ _ env self user_query s) as Hrun.
  cbv zeta in Hrun. unfold run_loop in Hrun.
  destruct (py_range_1_cons _ Hmax) as [rest Hrange].
  rewrite Hrange in Hrun. cbn [agent_loop] in Hrun.
  unfold bind at 1 in Hrun.
  rewrite (loop_body_final env self _ 1 _ _ response w1 Hllm Hnone) in Hrun.
  unfold ret in Hrun. cbn [final_answer_of] in Hrun.
  eexists. exact Hrun.
Qed.

(** C4 on the code: the first answer has no tool calls and its content is
    [None]. The run ends after one step with status ["completed"], and
    the answer is the max-steps text although [max_steps] is 10. *)
Theorem first_turn_without_content :
  fst (run (collaborators [says None] never never) (agent 10)
           "What is 2+2?" fresh)
  = Ok {| answer :=
            "Agent reached max steps (10) without completing the task.";
          trace_id := "trace-1"; steps := Some 1; status := "completed" |}.
Proof. vm_compute. reflexivity. Qed.

(** The scenario of the spec: the first answer is ["4"]. *)
Example first_turn_with_content :
  fst (run (collaborators [says (Some "4")] never never) (agent 10)
           "What is 2+2?" fresh)
  = Ok {| answer := "4"; trace_id := "trace-1"; steps := Some 1;
          status := "completed" |}.
Proof. vm_compute. reflexivity. Qed.

(** A run that no fault aborts. Let every answer of the model ask for
    tool calls, let the detector never report stagnation, let
    [max_steps] be a count, and let the status be ["completed"]. Then the
    answer is the max-steps text, the result's [steps] is [max_steps],
    and between the start and the end of the trace the tracer was told of
    exactly [max_steps] steps, numbered 1 to [max_steps]. *)
Theorem tool_calls_at_every_step_exhaust_max_steps :
  forall (W Tool Schema Json : Type) (env : Collaborators W Tool Schema Json)
         (self : Agent Tool) (user_query : string) (s : AgentState W Json)
         (r : RunResult) (s' : AgentState W Json),
    (forall w m msgs sch ch response w',
        acompletion env w m msgs sch ch = (Ok response, w') ->
        truthy_list (r_tool_calls response) = true) ->
    (forall w text, is_looping (fst (check_output_stagnation env w text))
                    = false) ->
    0 <= max_steps self ->
    run env self user_query s = (Ok r, s') ->
    status r = "completed" ->
    answer r = max_steps_answer self
    /\ steps r = Some (max_steps self)
    /\ exists recorded,
        tracer_log s'
        = (tracer_log s
           ++ [Trace_start (agent_name self) user_query (model self)
                           (trace_id r)]
           ++ logged_steps (trace_id r) recorded
           ++ [Trace_end (trace_id r) (max_steps_answer self)
                         "completed" None])%list
        /\ map AgentStep.step_number recorded = py_range_1 (max_steps self)
        /\ Z.of_nat (List.length recorded) = max_steps self.
Proof.
  intros W Tool Schema Json env self user_query s r s'
         Htools Hstag Hmax Hrun Hstatus.
  pose proof (run_unfold _ _ _ _ env self user_query s) as Hunf.
  cbv zeta in Hunf. rewrite Hrun in Hunf.
  assert (Hopen : tracer_log (snd (opened env self user_query s))
                  = (tracer_log s
                     ++ [Trace_start (agent_name self) user_query (model self)
                           (fst (opened env self user_query s))])%list).
  { unfold opened. now destruct (start_trace env (world s) _ _ _). }
  destruct (run_loop env self (fst (opened env self user_query s)) user_query
                     (snd (opened env self user_query s)))
    as [[[k exit]|e] s2] eqn:Hloop.
  - unfold run_loop in Hloop.
    destruct (agent_loop_exhausts env self _ _ Htools Hstag _ _ _ _ _ _ Hloop)
      as (-> & -> & recorded & Hlog & Hnums).
    inversion Hunf; subst r s'; clear Hunf.
    cbn [answer steps trace_id tracer_log final_answer_of].
    rewrite py_range_1_last by exact Hmax.
    repeat split. exists recorded.
    rewrite Hlog, Hopen, <- !app_assoc. repeat split; [exact Hnums|].
    rewrite <- (length_map AgentStep.step_number), Hnums.
    unfold py_range_1. rewrite length_map, length_seq. lia.
  - inversion Hunf; subst r. discriminate Hstatus.
Qed.

(** Three answers that each ask for the calculator, and
    [max_steps = 3]. *)
Lemma tool_calls_at_every_step_exhaust_max_steps_witness :
  exists r s',
    run (collaborators
           [asks None [call "call_1" "calculator" "{}"];
            asks None [call "call_2" "calculator" "{}"];
            asks None [call "call_3" "calculator" "{}"]]
           never never)
        (agent 3) "What is 2+2?" fresh
    = (Ok r, s')
    /\ answer r = "Agent reached max steps (3) without completing the task."
    /\ steps r = Some 3.
Proof.
  pose (env := collaborators
                 [asks None [call "call_1" "calculator" "{}"];
                  asks None [call "call_2" "calculator" "{}"];
                  asks None [call "call_3" "calculator" "{}"]]
                 never never).
  fold env.
  destruct (run env (agent 3) "What is 2+2?" fresh) as [o s'] eqn:Hrun.
  assert (Ho : exists r, o = Ok r /\ status r = "completed").
  { vm_compute in Hrun. inversion Hrun. eexists. split; reflexivity. }
  destruct Ho as (r & -> & Hstatus).
  assert (Htools : forall (w : nat) m msgs sch ch response w',
             acompletion env w m msgs sch ch = (Ok response, w') ->
             truthy_list (r_tool_calls response) = true).
  { intros w m msgs sch ch response w' H. cbn in H.
    destruct w as [|[|[|[|w]]]]; cbn in H; inversion H; reflexivity. }
  destruct (tool_calls_at_every_step_exhaust_max_steps
              nat ToolImpl string JsonValue env (agent 3) "What is 2+2?"
              fresh r s' Htools (fun _ _ => eq_refl)
              ltac:(cbn; lia) Hrun Hstatus) as (Hanswer & Hsteps & _).
  exists r, s'. repeat split; assumption.
Defined.

(* ===================================================================== *)
(** ** Tool results: faults, and the ids the results are filed under      *)
(* ===================================================================== *)

Section ToolResults.

Variables W Tool Schema Json : Type.
Variable env : Collaborators W Tool Schema Json.

(** [_execute_tool] returns for every input: a missing tool, argument
    text that does not parse, and a tool that raises all end as a text. *)
Lemma execute_tool_never_raises tool_call tool_name tool_input_str
      (s : AgentState W Json) :
  exists out s',
    _execute_tool env tool_call tool_name tool_input_str s
    = (Ok (tool_name, tool_input_str, out), s').
Proof. rewrite execute_tool_eq. now eexists; eexists. Qed.

(** On a fault the text is an error description, and not empty. *)
Lemma tool_fault_gives_error_text (w : W) tool_name tool_input_str :
  tool_faults env w tool_name tool_input_str = true ->
  exists description,
    fst (execute_tool_result env w tool_name tool_input_str)
    = "Error" ++ description.
Proof.
  unfold tool_faults, execute_tool_result.
  destruct (get_tool env w tool_name) as [t|]; [|intros _; now eexists].
  destruct (json_loads env tool_input_str) as [j|e]; [|intros _; now eexists].
  destruct (execute env w t j) as [[out|e] w1]; [discriminate|].
  intros _. now eexists.
Qed.

(** Recording a result parses the argument text once more, outside any
    handler: argument text that is not empty and does not parse makes
    the recording loop raise. *)
Lemma record_raises_on_unparsable_arguments
      tool_call tool_name tool_input_str out rest step messages
      (s : AgentState W Json) e :
  truthy_str (Some tool_input_str) = true ->
  json_loads env tool_input_str = Raised e ->
  record_tool_results env
    ((tool_call, (tool_name, tool_input_str, out)) :: rest) step messages s
  = (Raised e, s).
Proof.
  intros Hne Hbad. cbn [record_tool_results]. unfold bind at 1.
  rewrite Hne. unfold of_outcome. now rewrite Hbad.
Qed.

(** When recording succeeds, the messages it appends pair the k-th
    result with the id of the k-th element it was zipped with. *)
Lemma record_messages pairs :
  forall step messages (s : AgentState W Json) step' messages' s',
    record_tool_results env pairs step messages s
    = (Ok (step', messages'), s') ->
    messages'
    = (messages
       ++ map (fun p => tool_message (tc_id (fst p)) (fst (fst (snd p)))
                                     (snd (snd p))) pairs)%list.
Proof.
  induction pairs as [|[c [[n a] out]] rest IH];
    intros step messages s step' messages' s' H.
  - cbn in H. unfold ret in H. inversion H. now rewrite app_nil_r.
  - cbn [record_tool_results] in H. unfold bind at 1 in H.
    destruct ((if truthy_str (Some a)
               then of_outcome (json_loads env a)
               else ret (json_empty env)) s) as [[j|e] s1];
      [|discriminate H].
    apply IH in H. rewrite H. cbn. now rewrite <- app_assoc.
Qed.

End ToolResults.

(** C2 on the code: the step asks for two calls; the detector flags the
    first, so only the second reaches the registry. Its result ["4"] is
    appended under the id of the first call, ["call_1"]: the results are
    zipped with all requested calls, not with the calls that ran. *)
Theorem result_is_filed_under_the_flagged_call :
  exists s',
    loop_body
      (collaborators
         [asks None [call "call_1" "search" "{}";
                     call "call_2" "calculator" "{}"]]
         (String.eqb "search") never)
      (agent 10) "trace-1" 1 [user_message "What is 2+2?"] fresh
    = (Ok (Next,
           [user_message "What is 2+2?";
            assistant_message None
              (Some [call "call_1" "search" "{}";
                     call "call_2" "calculator" "{}"]);
            tool_message "call_1" "search"
              (LOOP_MARKER ++ "Repeated call to search");
            tool_message "call_1" "calculator" "4"]), s')
    /\ registry_log s' = [call "call_2" "calculator" "{}"].
Proof. eexists. split; vm_compute; reflexivity. Qed.

(** C3 on the code: the step asks for two calculator calls, the first
    with the argument text ["{"]. Both calls reach the registry, and
    [_execute_tool] turns the parse fault of the first into a text; but
    the run then ends with status ["error"] and the parse fault as its
    answer, and the tracer is told of no step. *)
Theorem unparsable_arguments_abort_the_run :
  exists s',
    run (collaborators
           [asks None [call "call_1" "calculator" "{";
                       call "call_2" "calculator" "{}"];
            says (Some "4")]
           never never)
        (agent 10) "What is 2+2?" fresh
    = (Ok {| answer :=
               "Error: Expecting property name enclosed in double quotes: "
               ++ "line 1 column 2 (char 1)";
             trace_id := "trace-1"; steps := None; status := "error" |}, s')
    /\ registry_log s' = [call "call_1" "calculator" "{";
                          call "call_2" "calculator" "{}"]
    /\ tracer_log s'
       = [Trace_start "ObservableAgent" "What is 2+2?"
                      "gemini/gemini-1.5-flash" "trace-1";
          Trace_end "trace-1" EmptyString "error"
            (Some ("Expecting property name enclosed in double quotes: "
                   ++ "line 1 column 2 (char 1)"))]
    /\ fst (gathered
              (collaborators [] never never) 0%nat
              [(call "call_1" "calculator" "{", "calculator", "{");
               (call "call_2" "calculator" "{}", "calculator", "{}")])
       = [("calculator", "{",
           "Error executing calculator: Expecting property name enclosed "
           ++ "in double quotes: line 1 column 2 (char 1)");
          ("calculator", "{}", "4")].
Proof. eexists. repeat split; vm_compute; reflexivity. Qed.

(** The same two calls with a tool that is not registered, and with a tool
    that raises: the fault stays with its call and the run goes on. *)
Example other_tool_faults_stay_local :
  fst (run (collaborators
              [asks None [call "call_1" "missing" "{}";
                          call "call_2" "failing" "{}";
                          call "call_3" "calculator" "{}"];
               says (Some "4")]
              never never)
           (agent 10) "What is 2+2?" fresh)
  = Ok {| answer := "4"; trace_id := "trace-1"; steps := Some 2;
          status := "completed" |}.
Proof. vm_compute. reflexivity. Qed.

(* ===================================================================== *)
(** ** The cost tracker under arbitrary sequences of calls                *)
(* ===================================================================== *)

Lemma apply_op_consistent (t : CostTracker.t) (op : TrackerOp) :
  tracker_consistent t -> tracker_consistent (apply_op t op).
Proof.
  intros [Hdone Hcur]. destruct op as [query|c|]; cbn [apply_op].
  - split; [exact Hdone|]. cbn. intros q Hq. inversion Hq.
    apply new_ledger_totals_ok.
  - unfold CostTracker.log_completion.
    destruct (CostTracker._current_query t) as [cur|] eqn:Hc;
      [|split; [exact Hdone | now rewrite Hc]].
    destruct (r_usage (c_response c)) as [u|];
      [|split; [exact Hdone | now rewrite Hc]].
    split; [exact Hdone|]. cbn. intros q Hq. inversion Hq.
    apply add_step_totals_ok. now apply Hcur.
  - unfold CostTracker.end_query.
    destruct (CostTracker._current_query t) as [cur|] eqn:Hc;
      [|split; [exact Hdone | now rewrite Hc]].
    split; [|cbn; discriminate].
    cbn. apply Forall_app. split; [exact Hdone|].
    constructor; [now apply Hcur | constructor].
Qed.

Lemma apply_ops_consistent (ops : list TrackerOp) :
  forall t, tracker_consistent t -> tracker_consistent (apply_ops t ops).
Proof.
  induction ops as [|op ops IH]; intros t Ht; cbn; [exact Ht|].
  apply IH. now apply apply_op_consistent.
Qed.

(** X1. Whatever sequence of [start_query], [log_completion] and
    [end_query] calls a new tracker receives, in any order, every sealed
    ledger and the active ledger have running totals equal to the sums
    over their steps. *)
Theorem every_ledger_stays_consistent :
  forall ops : list TrackerOp,
    let t := apply_ops CostTracker.new ops in
    Forall ledger_totals_ok (CostTracker.queries t)
    /\ forall q, CostTracker._current_query t = Some q -> ledger_totals_ok q.
Proof.
  intros ops. apply apply_ops_consistent.
  split; [constructor | cbn; discriminate].
Qed.

Lemma apply_op_appends (t : CostTracker.t) (op : TrackerOp) :
  exists added,
    CostTracker.queries (apply_op t op)
    = (CostTracker.queries t ++ added)%list
    /\ (List.length added <= if is_end_query op then 1 else 0)%nat.
Proof.
  destruct op as [query|c|]; cbn [apply_op is_end_query].
  - exists []. cbn. now rewrite app_nil_r.
  - exists []. rewrite app_nil_r. split; [|cbn; lia].
    unfold CostTracker.log_completion.
    destruct (CostTracker._current_query t); [|reflexivity].
    now destruct (r_usage (c_response c)).
  - unfold CostTracker.end_query.
    destruct (CostTracker._current_query t) as [cur|].
    + exists [cur]. split; [reflexivity | cbn; lia].
    + exists []. rewrite app_nil_r. split; [reflexivity | cbn; lia].
Qed.

(** X2. The completed list is append-only: after any sequence of calls it
    is the list from before followed by the ledgers sealed since, of
    which there are at most as many as [end_query] calls. No call
    changes or removes a sealed ledger. *)
Theorem completed_list_is_append_only :
  forall (ops : list TrackerOp) (t : CostTracker.t),
  exists added,
    CostTracker.queries (apply_ops t ops)
    = (CostTracker.queries t ++ added)%list
    /\ (List.length added <= List.length (filter is_end_query ops))%nat.
Proof.
  induction ops as [|op ops IH]; intros t.
  - exists []. cbn. now rewrite app_nil_r.
  - cbn [apply_ops fold_left].
    destruct (apply_op_appends t op) as (a1 & H1 & L1).
    destruct (IH (apply_op t op)) as (a2 & H2 & L2).
    exists (a1 ++ a2)%list. split.
    + unfold apply_ops in H2. now rewrite H2, H1, app_assoc.
    + rewrite length_app. cbn [filter].
      destruct (is_end_query op); cbn [List.length]; lia.
Qed.

Lemma log_completion_recorded (done : list QueryCost.t) (q : QueryCost.t)
      (c : Completion) :
  CostTracker.log_completion (CostTracker.mk done (Some q))
    (c_step_number c) (c_response c) (c_is_tool_call c)
  = CostTracker.mk done
      (Some (fold_left QueryCost.add_step (recorded_step c) q)).
Proof.
  unfold CostTracker.log_completion, recorded_step. cbn.
  now destruct (r_usage (c_response c)).
Qed.

Lemma log_completions_recorded (cs : list Completion) :
  forall (done : list QueryCost.t) (q : QueryCost.t),
    log_completions (CostTracker.mk done (Some q)) cs
    = CostTracker.mk done
        (Some (fold_left QueryCost.add_step (flat_map recorded_step cs) q)).
Proof.
  induction cs as [|c cs IH]; intros done q; [reflexivity|].
  cbn [log_completions fold_left flat_map].
  rewrite log_completion_recorded. unfold log_completions in IH.
  now rewrite IH, fold_left_app.
Qed.

Lemma fold_add_step_steps (steps : list StepCost.t) :
  forall q,
    QueryCost.steps (fold_left QueryCost.add_step steps q)
    = (QueryCost.steps q ++ steps)%list
    /\ QueryCost.query (fold_left QueryCost.add_step steps q)
       = QueryCost.query q.
Proof.
  induction steps as [|x steps IH]; intros q; cbn.
  - now rewrite app_nil_r.
  - destruct (IH (QueryCost.add_step q x)) as [H1 H2].
    rewrite H1, H2. cbn. now rewrite <- app_assoc.
Qed.

(** X3. The active ledger holds exactly the completions that carried
    usage, one step each, in the order they were logged, each with the
    step number and the flag it was logged with; a completion without
    usage leaves no step. *)
Theorem ledger_holds_completions_with_usage :
  forall (t : CostTracker.t) (query : string) (cs : list Completion),
  exists q,
    CostTracker._current_query
      (log_completions (CostTracker.start_query t query) cs) = Some q
    /\ QueryCost.query q = query
    /\ QueryCost.steps q = flat_map recorded_step cs
    /\ map StepCost.step_number (QueryCost.steps q)
       = map c_step_number
             (filter (fun c => match r_usage (c_response c) with
                               | Some _ => true
                               | None => false
                               end) cs)
    /\ map StepCost.is_tool_call (QueryCost.steps q)
       = map c_is_tool_call
             (filter (fun c => match r_usage (c_response c) with
                               | Some _ => true
                               | None => false
                               end) cs).
Proof.
  intros t query cs. unfold CostTracker.start_query.
  rewrite log_completions_recorded.
  eexists. split; [reflexivity|].
  destruct (fold_add_step_steps (flat_map recorded_step cs)
                                (QueryCost.new query)) as [Hs Hq].
  split; [exact Hq|]. split; [exact Hs|].
  rewrite Hs. cbn [QueryCost.new QueryCost.steps app].
  clear. split.
  - induction cs as [|c cs IH]; [reflexivity|].
    cbn [flat_map filter]. rewrite map_app, IH. unfold recorded_step.
    now destruct (r_usage (c_response c)).
  - induction cs as [|c cs IH]; [reflexivity|].
    cbn [flat_map filter]. rewrite map_app, IH. unfold recorded_step.
    now destruct (r_usage (c_response c)).
Qed.

(** X4. [start_query] on a tracker whose ledger is still open drops that
    ledger: after a second [start_query], more completions and
    [end_query], the completed list has gained one ledger only, the
    second, and none of the steps logged to the first are in it. *)
Theorem restarted_query_discards_open_ledger :
  forall (t : CostTracker.t) (q1 q2 : string) (cs1 cs2 : list Completion),
    CostTracker.end_query
      (log_completions
         (CostTracker.start_query
            (log_completions (CostTracker.start_query t q1) cs1) q2) cs2)
    = CostTracker.mk (CostTracker.queries t ++ [ledger_of q2 cs2]) None
    /\ QueryCost.steps (ledger_of q2 cs2) = flat_map recorded_step cs2.
Proof.
  intros t q1 q2 cs1 cs2. split.
  - unfold CostTracker.start_query at 2. rewrite log_completions_recorded.
    unfold CostTracker.start_query. cbn [CostTracker.queries].
    rewrite log_completions_recorded. reflexivity.
  - unfold ledger_of.
    now destruct (fold_add_step_steps (flat_map recorded_step cs2)
                                      (QueryCost.new q2)) as [-> _].
Qed.

(** X5. Accounting gaps are silent: with no active ledger, or when none
    of the responses carries usage, a sequence of [log_completion] calls
    leaves the tracker exactly as it was; and [end_query] with no active
    ledger does the same. *)
Theorem accounting_gaps_change_nothing :
  forall (t : CostTracker.t) (cs : list Completion),
    (CostTracker._current_query t = None
     \/ Forall (fun c => r_usage (c_response c) = None) cs) ->
    log_completions t cs = t
    /\ (CostTracker._current_query t = None -> CostTracker.end_query t = t).
Proof.
  intros t cs H. split.
  - induction cs as [|c cs IH]; [reflexivity|].
    cbn [log_completions fold_left].
    assert (Hc : CostTracker.log_completion t (c_step_number c)
                   (c_response c) (c_is_tool_call c) = t).
    { unfold CostTracker.log_completion.
      destruct H as [H|H].
      - now rewrite H.
      - inversion H as [|? ? Hu _]; subst. rewrite Hu.
        now destruct (CostTracker._current_query t). }
    rewrite Hc. apply IH.
    destruct H as [H|H]; [now left|right]. now inversion H.
  - intros Hn. unfold CostTracker.end_query. now rewrite Hn.
Qed.

Lemma accounting_gaps_change_nothing_witness :
  log_completions CostTracker.new
    [{| c_step_number := 1;
        c_response := {| r_content := Some "4"; r_tool_calls := None;
                         r_usage := usage_1000_500; r_model := None |};
        c_is_tool_call := false |}]
  = CostTracker.new.
Proof.
  apply (accounting_gaps_change_nothing CostTracker.new). left. reflexivity.
Defined.

(* ===================================================================== *)
(** ** The printed cost breakdown                                         *)
(* ===================================================================== *)

Lemma int_sum_from (l : list Z) : forall a, fold_left Z.add l a = a + int_sum l.
Proof.
  unfold int_sum. induction l as [|x l IH]; intros a; cbn; [lia|].
  rewrite IH, (IH x). lia.
Qed.

Lemma int_sum_app (l1 l2 : list Z) :
  int_sum (l1 ++ l2) = int_sum l1 + int_sum l2.
Proof. unfold int_sum at 1. rewrite fold_left_app. apply int_sum_from. Qed.

Lemma breakdown_loop_totals (txt : PyText) (queries : list QueryCost.t) :
  forall i acc,
    Forall ledger_totals_ok queries ->
    let done := breakdown_loop txt queries i acc in
    total_cost done
    = fold_left PrimFloat.add (map QueryCost.total_cost_usd queries)
                (total_cost acc)
    /\ total_input done
       = total_input acc
         + int_sum (map StepCost.input_tokens
                        (flat_map QueryCost.steps queries))
    /\ total_output done
       = total_output acc
         + int_sum (map StepCost.output_tokens
                        (flat_map QueryCost.steps queries))
    /\ exists body,
        printed done = (printed acc ++ body)%list
        /\ List.length body
           = (4 * List.length queries
              + List.length (flat_map QueryCost.steps queries))%nat.
Proof.
  induction queries as [|q queries IH]; intros i acc Hok done.
  - subst done. cbn. repeat split; try lia.
    exists []. now rewrite app_nil_r.
  - inversion Hok as [|? ? (Hc & Hi & Ho) Hrest]; subst.
    subst done. cbn [breakdown_loop].
    destruct (IH (i + 1)
                {| printed := printed acc ++ query_lines txt i q;
                   total_cost :=
                     PrimFloat.add (total_cost acc)
                                   (QueryCost.total_cost_usd q);
                   total_input :=
                     total_input acc + QueryCost.total_input_tokens q;
                   total_output :=
                     total_output acc + QueryCost.total_output_tokens q |}
                Hrest) as (Hcost & Hin & Hout & body & Hbody & Hlen).
    cbn [printed total_cost total_input total_output] in *.
    split; [exact Hcost|].
    cbn [flat_map]. rewrite !map_app, !int_sum_app.
    split; [rewrite Hin, Hi; lia|].
    split; [rewrite Hout, Ho; lia|].
    exists (query_lines txt i q ++ body)%list. split.
    + now rewrite Hbody, app_assoc.
    + rewrite length_app, Hlen. unfold query_lines.
      rewrite length_app, length_map. cbn [List.length].
      rewrite length_app. lia.
Qed.

(** X6. For a tracker whose sealed ledgers are consistent and not none,
    [print_cost_breakdown] prints three header lines, then four lines per
    ledger and one per step, then four closing lines; the closing
    [TOKENS] line gives the sums of the input and output tokens of all
    steps of all sealed ledgers, and the [TOTAL] line the sum of the
    ledgers' cost totals in list order. *)
Theorem breakdown_reports_the_sums_of_all_steps :
  forall (txt : PyText) (t : CostTracker.t),
    CostTracker.queries t <> [] ->
    Forall ledger_totals_ok (CostTracker.queries t) ->
    exists body,
      print_cost_breakdown txt t
      = ([(NL ++ RULE)%string; "COST BREAKDOWN"; RULE] ++ body
         ++ [ (NL ++ RULE)%string;
              ("TOTAL: $"
                ++ format_6f txt
                     (float_sum (map QueryCost.total_cost_usd
                                     (CostTracker.queries t))))%string;
              ("TOKENS: "
                ++ str_of_int
                     (int_sum (map StepCost.input_tokens (all_steps t)))
                ++ " input, "
                ++ str_of_int
                     (int_sum (map StepCost.output_tokens (all_steps t)))
                ++ " output")%string;
              (RULE ++ NL)%string ])%list
      /\ List.length body
         = (4 * List.length (CostTracker.queries t)
            + List.length (all_steps t))%nat.
Proof.
  intros txt t Hne Hok. unfold print_cost_breakdown, all_steps.
  destruct (CostTracker.queries t) as [|q qs] eqn:Hq; [contradiction|].
  destruct (breakdown_loop_totals txt (q :: qs) 1
              {| printed := [NL ++ RULE; "COST BREAKDOWN"; RULE];
                 total_cost := 0%float; total_input := 0;
                 total_output := 0 |} Hok)
    as (Hcost & Hin & Hout & body & Hbody & Hlen).
  cbn [printed total_cost total_input total_output] in *.
  exists body. split; [|exact Hlen].
  cbv zeta. rewrite Hbody, Hcost, Hin, Hout.
  unfold float_sum. rewrite !Z.add_0_l, <- app_assoc. reflexivity.
Qed.

Lemma breakdown_reports_the_sums_of_all_steps_witness :
  exists body,
    print_cost_breakdown
      {| format_6f := fun _ => "0.000450";
         slice_to := fun n s => String.substring 0 n s |}
      (CostTracker.mk [ledger_of "What is 2+2?"
                         [{| c_step_number := 1;
                             c_response :=
                               {| r_content := Some "4";
                                  r_tool_calls := None;
                                  r_usage := usage_1000_500;
                                  r_model := None |};
                             c_is_tool_call := false |}]] None)
    = ([(NL ++ RULE)%string; "COST BREAKDOWN"; RULE] ++ body
       ++ [ (NL ++ RULE)%string; "TOTAL: $0.000450";
            "TOKENS: 1000 input, 500 output"; (RULE ++ NL)%string ])%list
    /\ List.length body = 5%nat.
Proof.
  apply (breakdown_reports_the_sums_of_all_steps
           {| format_6f := fun _ => "0.000450";
              slice_to := fun n s => String.substring 0 n s |}
           (CostTracker.mk [ledger_of "What is 2+2?"
                              [{| c_step_number := 1;
                                  c_response :=
                                    {| r_content := Some "4";
                                       r_tool_calls := None;
                                       r_usage := usage_1000_500;
                                       r_model := None |};
                                  c_is_tool_call := false |}]] None)).
  - cbn. discriminate.
  - constructor; [|constructor]. repeat split.
Defined.

(* ===================================================================== *)
(** ** What one step does to the trace, the ledger and the conversation   *)
(* ===================================================================== *)

Lemma warnings_answer (judged : list (ToolCall * LoopResult)) :
  Forall (answers_one_of (map fst judged)) (warnings judged).
Proof.
  unfold warnings. apply Forall_flat_map, Forall_forall.
  intros [c v] Hin. cbn [fst snd].
  destruct (is_looping v); [|constructor].
  constructor; [|constructor]. split; [reflexivity|].
  exists c. split; [|reflexivity].
  apply in_map_iff. now exists (c, v).
Qed.

Lemma answers_one_of_incl (l1 l2 : list ToolCall) (m : Message) :
  incl l1 l2 -> answers_one_of l1 m -> answers_one_of l2 m.
Proof.
  intros Hincl (Hr & c & Hin & Hid). split; [exact Hr|].
  exists c. split; [now apply Hincl | exact Hid].
Qed.

Lemma map_fst_combine_incl {A B} (l : list A) (l' : list B) :
  incl (map fst (combine l l')) l.
Proof.
  intros x Hx. apply in_map_iff in Hx. destruct Hx as ([a b] & <- & Hin).
  now apply in_combine_l in Hin.
Qed.

Section StepEffects.

Variables W Tool Schema Json : Type.
Variable env : Collaborators W Tool Schema Json.
Variable self : Agent Tool.

Lemma loop_body_effects trace_id step_number messages
      (s : AgentState W Json) :
  match loop_body env self trace_id step_number messages s with
  | (Ok (ctl, messages'), s') =>
      exists response step added,
        cost_tracker s'
        = CostTracker.log_completion (cost_tracker s) step_number
                                     response false
        /\ tracer_log s' = (tracer_log s ++ [Trace_step trace_id step])%list
        /\ AgentStep.step_number step = step_number
        /\ messages'
           = (messages
              ++ assistant_message (r_content response)
                                   (r_tool_calls response) :: added)%list
        /\ Forall (answers_one_of (requested_calls response)) added
  | (Raised e, s') =>
      tracer_log s' = tracer_log s
      /\ (cost_tracker s' = cost_tracker s
          \/ exists response,
              cost_tracker s'
              = CostTracker.log_completion (cost_tracker s) step_number
                                           response false)
  end.
Proof.
  unfold loop_body. cbv zeta.
  unfold bind at 1, ask_raising.
  destruct (acompletion env (world s) (model self) messages _ _)
    as [[r|e] w1]; [|split; [reflexivity | now left]].
  unfold bind at 1, on_cost_tracker.
  cbn [world cost_tracker tracer_log registry_log set_world].
  destruct (r_tool_calls r) as [[|c cs]|] eqn:Hcalls.
  - unfold bind, tell_tracer, ret. cbn.
    exists r, (new_step step_number r), []. rewrite Hcalls.
    repeat split; [|constructor].
    unfold new_step. now destruct (r_usage r).
  - unfold bind at 1. rewrite dispatch_eq. cbv zeta.
    cbn [world cost_tracker tracer_log registry_log set_world].
    set (judged := combine (c :: cs)
                           (fst (loop_verdicts env w1 (c :: cs)))).
    unfold bind at 1. rewrite gather_eq.
    cbn [world cost_tracker tracer_log registry_log after_tools set_world
         fst snd app].
    set (results := fst (gathered env _ (queued judged))).
    match goal with
    | |- context [after_tools ?x ?y ?z] => set (s3 := after_tools x y z)
    end.
    unfold bind, tell_tracer, ask, ret.
    rewrite <- app_assoc.
    match goal with
    | |- context [record_tool_results env ?p ?st ?m ?s0] =>
        pose proof (tools_only_record env p st m s0) as [Hrc Hrt];
        destruct (record_tool_results env p st m s0)
          as [[[step m2]|e] s4] eqn:Hrec; cbn [snd] in Hrc, Hrt
    end.
    + pose proof (record_keeps_step_number _ _ _ _ _ _ _ _ _ _ _ _ Hrec)
        as Hnum.
      pose proof (record_messages _ _ _ _ _ _ _ _ _ _ _ _ Hrec) as Hmsgs.
      assert (Hstep : AgentStep.step_number step = step_number).
      { rewrite Hnum. unfold new_step. now destruct (r_usage r). }
      assert (Hadded :
                Forall (answers_one_of (c :: cs))
                  (warnings judged
                   ++ map (fun p =>
                             tool_message (tc_id (fst p))
                                          (fst (fst (snd p))) (snd (snd p)))
                          (combine (c :: cs) results))%list).
      { apply Forall_app. split.
        - eapply Forall_impl; [|apply warnings_answer].
          intros m. apply answers_one_of_incl. apply map_fst_combine_incl.
        - apply Forall_forall. intros m Hm. apply in_map_iff in Hm.
          destruct Hm as ([c' res] & <- & Hin). split; [reflexivity|].
          exists c'. split; [|reflexivity]. now apply in_combine_l in Hin. }
      assert (Hfinal :
                forall w5 : W,
                  exists response step0 added,
                    cost_tracker
                      {| world := w5; cost_tracker := cost_tracker s4;
                         tracer_log :=
                           tracer_log s4 ++ [Trace_step trace_id step];
                         registry_log := registry_log s4 |}
                    = CostTracker.log_completion (cost_tracker s)
                        step_number response false
                    /\ tracer_log
                         {| world := w5; cost_tracker := cost_tracker s4;
                            tracer_log :=
                              tracer_log s4 ++ [Trace_step trace_id step];
                            registry_log := registry_log s4 |}
                       = (tracer_log s ++ [Trace_step trace_id step0])%list
                    /\ AgentStep.step_number step0 = step_number
                    /\ m2
                       = (messages
                          ++ assistant_message (r_content response)
                               (r_tool_calls response) :: added)%list
                    /\ Forall (answers_one_of (requested_calls response))
                              added).
      { intros w5. exists r, step. eexists.
        cbn [cost_tracker tracer_log]. rewrite Hrc, Hrt. subst s3.
        cbn [cost_tracker tracer_log after_tools].
        split; [reflexivity|]. split; [reflexivity|].
        split; [exact Hstep|].
        unfold requested_calls. rewrite Hcalls.
        split; [|exact Hadded].
        rewrite Hmsgs, <- !app_assoc. cbn [assistant_message truthy_list app].
        reflexivity. }
      destruct (truthy_str (r_content r)).
      * cbn [world].
        match goal with
        | |- context [check_output_stagnation env ?w ?t] =>
            destruct (check_output_stagnation env w t) as [v w5]
        end.
        unfold set_world; cbn [world cost_tracker tracer_log registry_log].
        destruct (is_looping v); apply Hfinal.
      * apply Hfinal.
    + rewrite Hrc, Hrt. subst s3. cbn [cost_tracker tracer_log after_tools].
      split; [reflexivity|]. right. now exists r.
  - unfold bind, tell_tracer, ret. cbn.
    exists r, (new_step step_number r), []. rewrite Hcalls.
    repeat split; [|constructor].
    unfold new_step. now destruct (r_usage r).
Qed.

End StepEffects.

Arguments loop_body_effects {W Tool Schema Json}.

Lemma firstn_seq_prefix (j : nat) :
  forall start len, (j <= len)%nat -> firstn j (seq start len) = seq start j.
Proof.
  induction j as [|j IH]; intros start len Hj; [reflexivity|].
  destruct len as [|len]; [lia|]. cbn. f_equal. apply IH. lia.
Qed.

Lemma py_range_1_length (n : Z) : List.length (py_range_1 n) = Z.to_nat n.
Proof. unfold py_range_1. now rewrite length_map, length_seq. Qed.

Lemma py_range_1_firstn (n : Z) (j : nat) :
  (j <= List.length (py_range_1 n))%nat ->
  firstn j (py_range_1 n) = py_range_1 (Z.of_nat j).
Proof.
  rewrite py_range_1_length. intros Hj. unfold py_range_1.
  now rewrite firstn_map, firstn_seq_prefix, Nat2Z.id.
Qed.

Section LoopEffects.

Variables W Tool Schema Json : Type.
Variable env : Collaborators W Tool Schema Json.
Variable self : Agent Tool.

(** What the loop over [range] has done when it ends, however it ends:
    the steps it logged and the completions it sent to the cost tracker
    follow [range] from its start. *)
Lemma agent_loop_effects trace_id range :
  forall step_number messages (s : AgentState W Json) o s',
    agent_loop env self trace_id range step_number messages s = (o, s') ->
    exists (logged : list (AgentStep.t Json)) (cs : list Completion),
      tracer_log s' = (tracer_log s ++ logged_steps trace_id logged)%list
      /\ map AgentStep.step_number logged
         = firstn (List.length logged) range
      /\ cost_tracker s' = log_completions (cost_tracker s) cs
      /\ map c_step_number cs = firstn (List.length cs) range
      /\ Forall (fun c => c_is_tool_call c = false) cs
      /\ (List.length logged <= List.length cs <= List.length range)%nat
      /\ match o with
         | Ok (k, exit) =>
             k = last (map AgentStep.step_number logged) step_number
             /\ List.length cs = List.length logged
             /\ (range <> [] -> logged <> [])
             /\ (exit = Exit_exhausted ->
                 List.length logged = List.length range)
         | Raised _ => (List.length logged < List.length range)%nat
         end.
Proof.
  induction range as [|n rest IH]; intros step_number messages s o s' H.
  - cbn in H. unfold ret in H. inversion H; subst.
    exists [], []. cbn. rewrite app_nil_r.
    repeat split; try lia; try constructor; try congruence.
  - cbn [agent_loop] in H. unfold bind at 1 in H.
    pose proof (loop_body_effects env self trace_id n messages s) as Hbody.
    destruct (loop_body env self trace_id n messages s)
      as [[[ctl m1]|e] s1].
    + destruct Hbody as (response & step & added & Hct & Htr & Hnum & _).
      set (c := {| c_step_number := n; c_response := response;
                   c_is_tool_call := false |}).
      destruct ctl as [reasoning|m|].
      * unfold ret in H. inversion H; subst o s'.
        exists [step], [c]. cbn. rewrite Hnum.
        repeat split; try lia; try congruence; auto.
      * unfold ret in H. inversion H; subst o s'.
        exists [step], [c]. cbn. rewrite Hnum.
        repeat split; try lia; try congruence; auto.
      * destruct (IH n m1 s1 o s' H)
          as (logged & cs & Htr' & Hnums & Hct' & Hcnums & Hflags & Hlen
              & Hres).
        exists (step :: logged), (c :: cs).
        split; [rewrite Htr', Htr; cbn; now rewrite <- app_assoc|].
        split; [cbn; now rewrite Hnum, Hnums|].
        split; [rewrite Hct', Hct; reflexivity|].
        split; [cbn; now rewrite Hcnums|].
        split; [now constructor|].
        split; [cbn; lia|].
        destruct o as [[k exit]|e].
        -- destruct Hres as (Hk & Hl & Hne & Hex).
           split; [|split; [cbn; lia | split; [congruence|]]].
           ++ cbn [map]. rewrite Hk, Hnum.
              destruct (map AgentStep.step_number logged) as [|x l];
                [reflexivity|].
              change (last (x :: l) n = last (x :: l) step_number).
              apply last_cons_any_default.
           ++ intros He. cbn. now rewrite Hex.
        -- cbn. lia.
    + destruct Hbody as [Htr Hct]. inversion H; subst o s'.
      destruct Hct as [Hct|[response Hct]].
      * exists [], []. cbn. rewrite app_nil_r.
        repeat split; try lia; auto.
      * exists [], [{| c_step_number := n; c_response := response;
                       c_is_tool_call := false |}].
        cbn. rewrite app_nil_r.
        repeat split; try lia; auto.
Qed.

(** The same for a whole run: the trace and the sealed ledger. *)
Lemma run_effects (user_query : string) (s : AgentState W Json) :
  exists r s' (logged : list (AgentStep.t Json)) (cs : list Completion)
         final_answer error,
    run env self user_query s = (Ok r, s')
    /\ tracer_log s'
       = (tracer_log s
          ++ [Trace_start (agent_name self) user_query (model self)
                          (trace_id r)]
          ++ logged_steps (trace_id r) logged
          ++ [Trace_end (trace_id r) final_answer (status r) error])%list
    /\ map AgentStep.step_number logged
       = py_range_1 (Z.of_nat (List.length logged))
    /\ cost_tracker s'
       = CostTracker.mk
           (CostTracker.queries (cost_tracker s)
            ++ [ledger_of user_query cs]) None
    /\ map c_step_number cs = py_range_1 (Z.of_nat (List.length cs))
    /\ Forall (fun c => c_is_tool_call c = false) cs
    /\ (List.length logged <= List.length cs)%nat
    /\ Z.of_nat (List.length cs) <= Z.max 0 (max_steps self)
    /\ (status r = "completed" /\ error = None /\ final_answer = answer r
        /\ steps r = Some (Z.of_nat (List.length logged))
        /\ List.length cs = List.length logged
        /\ (0 < max_steps self -> logged <> [])
        \/ status r = "error" /\ final_answer = EmptyString
           /\ steps r = None
           /\ exists e, error = Some e /\ answer r = "Error: " ++ e).
Proof.
  pose proof (run_unfold _ _ _ _ env self user_query s) as Hrun.
  cbv zeta in Hrun. unfold run_loop in Hrun.
  destruct (agent_loop env self (fst (opened env self user_query s))
              (py_range_1 (max_steps self)) 0
              (initial_messages self user_query)
              (snd (opened env self user_query s)))
    as [o s2] eqn:Hloop.
  destruct (agent_loop_effects _ _ _ _ _ _ _ Hloop)
    as (logged & cs & Htr & Hnums & Hct & Hcnums & Hflags & Hlen & Hres).
  assert (Hopen :
            tracer_log (snd (opened env self user_query s))
            = (tracer_log s
               ++ [Trace_start (agent_name self) user_query (model self)
                     (fst (opened env self user_query s))])%list
            /\ cost_tracker (snd (opened env self user_query s))
               = CostTracker.start_query (cost_tracker s) user_query).
  { unfold opened. now destruct (start_trace env (world s) _ _ _). }
  destruct Hopen as [Hotr Hoct]. rewrite Hotr in Htr. rewrite Hoct in Hct.
  unfold CostTracker.start_query in Hct.
  rewrite log_completions_recorded in Hct. fold (ledger_of user_query cs) in Hct.
  rewrite py_range_1_length in Hlen.
  rewrite py_range_1_firstn in Hnums
    by (rewrite py_range_1_length; lia).
  rewrite py_range_1_firstn in Hcnums
    by (rewrite py_range_1_length; lia).
  assert (Hbound : Z.of_nat (List.length cs) <= Z.max 0 (max_steps self))
    by lia.
  destruct o as [[k exit]|e].
  - destruct Hres as (Hk & Hl & Hne & _).
    eexists; eexists; exists logged, cs; eexists; eexists.
    split; [exact Hrun|].
    cbn [trace_id status answer steps tracer_log cost_tracker].
    split; [rewrite Htr, <- !app_assoc; reflexivity|].
    split; [exact Hnums|].
    split; [unfold CostTracker.end_query; rewrite Hct; reflexivity|].
    split; [exact Hcnums|]. split; [exact Hflags|].
    split; [lia|]. split; [exact Hbound|].
    left. repeat split; try assumption.
    + f_equal. rewrite Hk, Hnums.
      apply py_range_1_last. lia.
    + intros Hmax. apply Hne. intros Hnil.
      apply (f_equal (@List.length Z)) in Hnil.
      rewrite py_range_1_length in Hnil. cbn in Hnil. lia.
  - eexists; eexists; exists logged, cs; eexists; eexists.
    split; [exact Hrun|].
    cbn [trace_id status answer steps tracer_log cost_tracker].
    split; [rewrite Htr, <- !app_assoc; reflexivity|].
    split; [exact Hnums|].
    split; [unfold CostTracker.end_query; rewrite Hct; reflexivity|].
    split; [exact Hcnums|]. split; [exact Hflags|].
    split; [lia|]. split; [exact Hbound|].
    right. repeat split. now exists e.
Qed.

End LoopEffects.

Arguments run_effects {W Tool Schema Json}.

(* ===================================================================== *)
(** ** Properties of a run read off these effects                         *)
(* ===================================================================== *)

(** X7. [_execute_tool] returns for every input, with the name and the
    argument text it was given; it asks the registry exactly once and
    touches neither the cost tracker nor the tracer. When the tool is
    missing, the argument text does not parse, or the tool raises, the
    returned text starts with ["Error"]; for a missing tool it is the
    "not found" text and the world is as before. *)
Theorem tool_execution_always_returns_text :
  forall (W Tool Schema Json : Type) (env : Collaborators W Tool Schema Json)
         (tool_call : ToolCall) (tool_name tool_input_str : string)
         (s : AgentState W Json),
  exists out w',
    _execute_tool env tool_call tool_name tool_input_str s
    = (Ok (tool_name, tool_input_str, out),
       {| world := w'; cost_tracker := cost_tracker s;
          tracer_log := tracer_log s;
          registry_log := registry_log s ++ [tool_call] |})
    /\ (tool_faults env (world s) tool_name tool_input_str = true ->
        exists description, out = "Error" ++ description)
    /\ (get_tool env (world s) tool_name = None ->
        out = "Error: Tool '" ++ tool_name ++ "' not found"
        /\ w' = world s).
Proof.
  intros W Tool Schema Json env tool_call tool_name tool_input_str s.
  eexists; eexists. split; [apply execute_tool_eq|]. split.
  - apply tool_fault_gives_error_text.
  - intros Hnone. unfold execute_tool_result. now rewrite Hnone.
Qed.

Lemma gathered_shape {W Tool Schema Json}
      (env : Collaborators W Tool Schema Json)
      (tasks : list (ToolCall * string * string)) :
  forall w,
    map fst (fst (gathered env w tasks))
    = map (fun t => (snd (fst t), snd t)) tasks.
Proof.
  induction tasks as [|[[c n] a] rest IH]; intros w; [reflexivity|].
  cbn [gathered]. destruct (execute_tool_result env w n a) as [out w1].
  specialize (IH w1). destruct (gathered env w1 rest) as [rs w2].
  cbn in *. now rewrite IH.
Qed.

(** X8. [gather] returns for every list of tasks: one result per task,
    in the order of the tasks, each with the name and the argument text
    of its task. The registry is asked once per task, in that order, and
    the cost tracker and the tracer are left alone. *)
Theorem gather_returns_one_result_per_task :
  forall (W Tool Schema Json : Type) (env : Collaborators W Tool Schema Json)
         (tasks : list (ToolCall * string * string))
         (s : AgentState W Json),
  exists results s',
    gather env tasks s = (Ok results, s')
    /\ map fst results = map (fun t => (snd (fst t), snd t)) tasks
    /\ List.length results = List.length tasks
    /\ registry_log s' = (registry_log s ++ map task_call tasks)%list
    /\ cost_tracker s' = cost_tracker s
    /\ tracer_log s' = tracer_log s.
Proof.
  intros W Tool Schema Json env tasks s.
  eexists; eexists. split; [apply gather_eq|].
  pose proof (gathered_shape env tasks (world s)) as Hshape.
  split; [exact Hshape|]. split; [|now cbn].
  transitivity (List.length (map fst (fst (gathered env (world s) tasks)))).
  - symmetry. apply length_map.
  - rewrite Hshape. apply length_map.
Qed.

(** X9. The trace of every run is bracketed: to what the tracer held
    before, [run] adds one start event, then the steps it logged, then
    one end event, and nothing after it. The logged steps are numbered
    1, 2, ... without gap or repeat; the end event carries the status of
    the result; and in a completed run the result's [steps] is the
    number of logged steps. *)
Theorem run_trace_is_bracketed :
  forall (W Tool Schema Json : Type) (env : Collaborators W Tool Schema Json)
         (self : Agent Tool) (user_query : string) (s : AgentState W Json),
  exists r s' (logged : list (AgentStep.t Json)) final_answer error,
    run env self user_query s = (Ok r, s')
    /\ tracer_log s'
       = (tracer_log s
          ++ [Trace_start (agent_name self) user_query (model self)
                          (trace_id r)]
          ++ logged_steps (trace_id r) logged
          ++ [Trace_end (trace_id r) final_answer (status r) error])%list
    /\ map AgentStep.step_number logged
       = py_range_1 (Z.of_nat (List.length logged))
    /\ (status r = "completed" ->
        steps r = Some (Z.of_nat (List.length logged))
        /\ final_answer = answer r /\ error = None).
Proof.
  intros W Tool Schema Json env self user_query s.
  destruct (run_effects env self user_query s)
    as (r & s' & logged & cs & fa & err & Hrun & Htr & Hnums & _ & _ & _ & _
        & _ & Hcase).
  exists r, s', logged, fa, err.
  split; [exact Hrun|]. split; [exact Htr|]. split; [exact Hnums|].
  intros Hst. destruct Hcase as [(_ & He & Hfa & Hsteps & _)|(Herr & _)].
  - auto.
  - rewrite Herr in Hst. discriminate Hst.
Qed.

(** X10. A run never takes more steps than [max_steps]: a result that has
    a [steps] field has status ["completed"] and a count between 0 and
    [max_steps] (0 when [max_steps] is not positive, at least 1
    otherwise); a result without it has status ["error"]. *)
Theorem run_steps_stay_within_max_steps :
  forall (W Tool Schema Json : Type) (env : Collaborators W Tool Schema Json)
         (self : Agent Tool) (user_query : string) (s : AgentState W Json),
  exists r s',
    run env self user_query s = (Ok r, s')
    /\ match steps r with
       | Some k =>
           status r = "completed"
           /\ 0 <= k <= Z.max 0 (max_steps self)
           /\ (0 < max_steps self -> 1 <= k)
       | None => status r = "error"
       end.
Proof.
  intros W Tool Schema Json env self user_query s.
  destruct (run_effects env self user_query s)
    as (r & s' & logged & cs & fa & err & Hrun & _ & _ & _ & _ & _ & Hle
        & Hmax & Hcase).
  exists r, s'. split; [exact Hrun|].
  destruct Hcase as [(Hst & _ & _ & Hsteps & Hlen & Hne)|(Hst & _ & Hsteps & _)].
  - rewrite Hsteps. split; [exact Hst|]. split; [lia|].
    intros Hpos. specialize (Hne Hpos).
    destruct logged; [contradiction | cbn; lia].
  - now rewrite Hsteps.
Qed.

Lemma fold_add_step_totals_ok (l : list StepCost.t) :
  forall q, ledger_totals_ok q ->
            ledger_totals_ok (fold_left QueryCost.add_step l q).
Proof.
  induction l as [|x l IH]; intros q Hok; [exact Hok|].
  cbn. apply IH. now apply add_step_totals_ok.
Qed.

Lemma ledger_of_shape (query : string) (cs : list Completion) :
  QueryCost.query (ledger_of query cs) = query
  /\ QueryCost.steps (ledger_of query cs) = flat_map recorded_step cs
  /\ ledger_totals_ok (ledger_of query cs).
Proof.
  unfold ledger_of.
  destruct (fold_add_step_steps (flat_map recorded_step cs)
                                (QueryCost.new query)) as [Hs Hq].
  split; [exact Hq|]. split; [exact Hs|].
  apply fold_add_step_totals_ok, new_ledger_totals_ok.
Qed.

(** X11. The ledger a run seals has one step for each answer of the
    model that carried usage and nothing else: it is built from one
    completion per answered model call, the calls numbered 1, 2, ... and
    none of them flagged as a tool call, so every step of the ledger has
    [is_tool_call = False]; there are no more completions than
    [max_steps], in a completed run exactly [steps] of them; and the
    ledger's totals are the sums over its steps. *)
Theorem run_ledger_has_one_entry_per_model_answer :
  forall (W Tool Schema Json : Type) (env : Collaborators W Tool Schema Json)
         (self : Agent Tool) (user_query : string) (s : AgentState W Json),
  exists r s' (cs : list Completion),
    run env self user_query s = (Ok r, s')
    /\ cost_tracker s'
       = CostTracker.mk
           (CostTracker.queries (cost_tracker s)
            ++ [ledger_of user_query cs]) None
    /\ QueryCost.steps (ledger_of user_query cs) = flat_map recorded_step cs
    /\ map c_step_number cs = py_range_1 (Z.of_nat (List.length cs))
    /\ Z.of_nat (List.length cs) <= Z.max 0 (max_steps self)
    /\ Forall (fun st => StepCost.is_tool_call st = false)
              (QueryCost.steps (ledger_of user_query cs))
    /\ ledger_totals_ok (ledger_of user_query cs)
    /\ (status r = "completed" ->
        steps r = Some (Z.of_nat (List.length cs))).
Proof.
  intros W Tool Schema Json env self user_query s.
  destruct (run_effects env self user_query s)
    as (r & s' & logged & cs & fa & err & Hrun & _ & _ & Hct & Hnums & Hflags
        & _ & Hmax & Hcase).
  destruct (ledger_of_shape user_query cs) as (_ & Hsteps & Hok).
  exists r, s', cs.
  split; [exact Hrun|]. split; [exact Hct|]. split; [exact Hsteps|].
  split; [exact Hnums|]. split; [exact Hmax|].
  split; [|split; [exact Hok|]].
  - rewrite Hsteps. apply Forall_flat_map.
    eapply Forall_impl; [|exact Hflags].
    intros c Hc. unfold recorded_step.
    destruct (r_usage (c_response c)); constructor; [exact Hc | constructor].
  - intros Hst.
    destruct Hcase as [(_ & _ & _ & Hsteps' & Hlen & _)|(Herr & _)].
    + now rewrite Hlen.
    + rewrite Herr in Hst. discriminate Hst.
Qed.

(** X12. With [max_steps] zero or negative the loop body never runs: the
    model, the loop detector and the registry are not reached (the world
    is the one [start_trace] left), the run is ["completed"] with
    [steps = 0] and the max-steps text, and the sealed ledger is empty. *)
Theorem run_without_steps_never_calls_the_model :
  forall (W Tool Schema Json : Type) (env : Collaborators W Tool Schema Json)
         (self : Agent Tool) (user_query : string) (s : AgentState W Json),
    max_steps self <= 0 ->
    exists s',
      run env self user_query s
      = (Ok {| answer := max_steps_answer self;
               trace_id := fst (opened env self user_query s);
               steps := Some 0; status := "completed" |}, s')
      /\ world s' = world (snd (opened env self user_query s))
      /\ registry_log s' = registry_log s
      /\ cost_tracker s'
         = CostTracker.mk
             (CostTracker.queries (cost_tracker s)
              ++ [QueryCost.new user_query]) None.
Proof.
  intros W Tool Schema Json env self user_query s Hmax.
  pose proof (run_unfold _ _ _ _ env self user_query s) as Hrun.
  cbv zeta in Hrun. unfold run_loop, py_range_1 in Hrun.
  replace (Z.to_nat (max_steps self)) with 0%nat in Hrun by lia.
  cbn [seq map agent_loop] in Hrun. unfold ret in Hrun.
  cbn [final_answer_of] in Hrun.
  eexists. split; [exact Hrun|].
  cbn [world registry_log cost_tracker]. unfold opened.
  destruct (start_trace env (world s) _ _ _) as [tid w]. now cbn.
Qed.

Lemma run_without_steps_never_calls_the_model_witness :
  exists s',
    run (collaborators [says (Some "4")] never never) (agent 0)
        "What is 2+2?" fresh
    = (Ok {| answer :=
               "Agent reached max steps (0) without completing the task.";
             trace_id := "trace-1"; steps := Some 0;
             status := "completed" |}, s')
    /\ world s' = 0%nat.
Proof.
  destruct (run_without_steps_never_calls_the_model
              nat ToolImpl string JsonValue
              (collaborators [says (Some "4")] never never) (agent 0)
              "What is 2+2?" fresh ltac:(cbn; lia))
    as (s' & Hrun & Hw & _).
  exists s'. split; [exact Hrun | exact Hw].
Defined.

(** X13. A step only appends to the conversation: when it ends without a
    fault, the conversation is the one it was given, then the assistant
    turn of the model's answer, then tool-role messages only, each of
    which carries the id of a call that this answer asked for. *)
Theorem step_only_appends_to_conversation :
  forall (W Tool Schema Json : Type) (env : Collaborators W Tool Schema Json)
         (self : Agent Tool) (trace_id : string) (step_number : Z)
         (messages : list Message) (s : AgentState W Json)
         (ctl : Ctl) (messages' : list Message) (s' : AgentState W Json),
    loop_body env self trace_id step_number messages s
    = (Ok (ctl, messages'), s') ->
    exists response added,
      messages'
      = (messages
         ++ assistant_message (r_content response) (r_tool_calls response)
         :: added)%list
      /\ Forall (answers_one_of (requested_calls response)) added.
Proof.
  intros W Tool Schema Json env self trace_id step_number messages s
         ctl messages' s' H.
  pose proof (loop_body_effects env self trace_id step_number messages s)
    as Hbody.
  rewrite H in Hbody.
  destruct Hbody as (response & step & added & _ & _ & _ & Hm & Hadded).
  now exists response, added.
Qed.

Lemma step_only_appends_to_conversation_witness :
  exists response added,
    [user_message "What is 2+2?";
     assistant_message None
       (Some [call "call_1" "search" "{}";
              call "call_2" "calculator" "{}"]);
     tool_message "call_1" "search"
       (LOOP_MARKER ++ "Repeated call to search");
     tool_message "call_1" "calculator" "4"]
    = ([user_message "What is 2+2?"]
       ++ assistant_message (r_content response) (r_tool_calls response)
       :: added)%list
    /\ Forall (answers_one_of (requested_calls response)) added.
Proof.
  eapply (step_only_appends_to_conversation nat ToolImpl string JsonValue
            (collaborators
               [asks None [call "call_1" "search" "{}";
                           call "call_2" "calculator" "{}"]]
               (String.eqb "search") never)
            (agent 10) "trace-1" 1 [user_message "What is 2+2?"] fresh).
  vm_compute. reflexivity.
Defined.

Lemma unflagged_calls_are_all_queued (calls : list ToolCall) :
  forall vs : list LoopResult,
    Forall (fun v => is_looping v = false) vs ->
    List.length vs = List.length calls ->
    queued (combine calls vs) = map task_of calls
    /\ warnings (combine calls vs) = [].
Proof.
  induction calls as [|c calls IH]; intros [|v vs] Hall Hlen;
    try discriminate Hlen; [now split|].
  inversion Hall as [|? ? Hv Hrest]; subst.
  destruct (IH vs Hrest ltac:(cbn in Hlen; lia)) as [Hq Hw].
  unfold queued, warnings in *. cbn [combine flat_map fst snd].
  rewrite Hv, Hq, Hw. now split.
Qed.

Lemma aligned_results_name_their_calls (calls : list ToolCall) :
  forall results : list (string * string * string),
    map fst results = map (fun c => (tc_name c, tc_arguments c)) calls ->
    map (fun p => tool_message (tc_id (fst p)) (fst (fst (snd p)))
                               (snd (snd p)))
        (combine calls results)
    = map (fun p => tool_message (tc_id (fst p)) (tc_name (fst p))
                                 (snd (snd p)))
          (combine calls results)
    /\ List.length (combine calls results) = List.length calls.
Proof.
  induction calls as [|c calls IH]; intros [|[[n a] out] results] H;
    try discriminate H; [now split|].
  cbn in H. inversion H as [[Hn Ha Hrest]].
  destruct (IH results Hrest) as [Hm Hl].
  cbn. now rewrite Hm, Hl.
Qed.

(** X14. When the loop detector flags none of the requested calls, every
    call is queued and run in request order, the registry is asked for
    exactly these calls, and if recording succeeds the conversation gains
    one tool-role message per call, in request order, each with the id
    and the name of its own call and the text that call produced. *)
Theorem unflagged_results_carry_their_own_ids :
  forall (W Tool Schema Json : Type) (env : Collaborators W Tool Schema Json)
         (tool_calls : list ToolCall) (messages : list Message)
         (step : AgentStep.t Json) (s : AgentState W Json),
    Forall (fun v => is_looping v = false)
           (fst (loop_verdicts env (world s) tool_calls)) ->
    exists s1 results s2,
      dispatch_tool_calls env tool_calls messages [] s
      = (Ok (messages, map task_of tool_calls), s1)
      /\ gather env (map task_of tool_calls) s1 = (Ok results, s2)
      /\ map fst results
         = map (fun c => (tc_name c, tc_arguments c)) tool_calls
      /\ registry_log s2 = (registry_log s ++ tool_calls)%list
      /\ forall step' messages' s3,
          record_tool_results env (combine tool_calls results) step
                              messages s2
          = (Ok (step', messages'), s3) ->
          messages'
          = (messages
             ++ map (fun p => tool_message (tc_id (fst p)) (tc_name (fst p))
                                           (snd (snd p)))
                    (combine tool_calls results))%list
          /\ List.length (combine tool_calls results)
             = List.length tool_calls.
Proof.
  intros W Tool Schema Json env tool_calls messages step s Hall.
  pose proof (dispatch_eq env tool_calls messages [] s) as Hd.
  cbv zeta in Hd.
  destruct (unflagged_calls_are_all_queued tool_calls _ Hall
              (loop_verdicts_length env tool_calls (world s))) as [Hq Hw].
  rewrite Hq, Hw, app_nil_r in Hd. cbn [app] in Hd.
  pose proof (gather_eq env (map task_of tool_calls)
                (set_world s (snd (loop_verdicts env (world s) tool_calls))))
    as Hg.
  pose proof (gathered_shape env (map task_of tool_calls)
                (world (set_world s (snd (loop_verdicts env (world s)
                                                         tool_calls)))))
    as Hshape.
  rewrite map_map in Hshape. cbn [task_of fst snd] in Hshape.
  eexists; eexists; eexists.
  split; [exact Hd|]. split; [exact Hg|]. split; [exact Hshape|].
  split.
  - cbn [after_tools registry_log set_world]. rewrite map_map.
    cbn [task_call task_of fst]. now rewrite map_id.
  - intros step' messages' s3 Hrec.
    apply record_messages in Hrec.
    destruct (aligned_results_name_their_calls tool_calls _ Hshape)
      as [Hm Hl].
    split; [|exact Hl]. rewrite Hrec. f_equal. exact Hm.
Qed.

Lemma unflagged_results_carry_their_own_ids_witness :
  exists s1 results s2,
    dispatch_tool_calls (collaborators [] never never)
      [call "call_1" "calculator" "{}"; call "call_2" "missing" "{}"]
      [] [] fresh
    = (Ok ([], [task_of (call "call_1" "calculator" "{}");
                task_of (call "call_2" "missing" "{}")]), s1)
    /\ gather (collaborators [] never never)
              [task_of (call "call_1" "calculator" "{}");
               task_of (call "call_2" "missing" "{}")] s1
       = (Ok results, s2)
    /\ registry_log s2
       = [call "call_1" "calculator" "{}"; call "call_2" "missing" "{}"].
Proof.
  destruct (unflagged_results_carry_their_own_ids
              nat ToolImpl string JsonValue (collaborators [] never never)
              [call "call_1" "calculator" "{}"; call "call_2" "missing" "{}"]
              [] (new_step 1 {| r_content := None; r_tool_calls := None;
                                r_usage := None; r_model := None |})
              fresh
              ltac:(repeat constructor))
    as (s1 & results & s2 & Hd & Hg & _ & Hr & _).
  exists s1, results, s2. repeat split; assumption.
Defined.

(* ===================================================================== *)
(** ** main.py: the three phases                                          *)
(* ===================================================================== *)

Lemma run_always_returns {W Tool Schema Json}
      (env : Collaborators W Tool Schema Json) (self : Agent Tool)
      (user_query : string) (s : AgentState W Json) :
  exists r s', run env self user_query s = (Ok r, s').
Proof.
  pose proof (run_unfold _ _ _ _ env self user_query s) as Hrun.
  cbv zeta in Hrun.
  destruct (run_loop env self _ user_query _) as [[[k exit]|e] s2];
    eexists; eexists; exact Hrun.
Qed.

Lemma phase_failed_iff (r : RunResult) :
  (phase_failed r = true <-> status r = "error")
  /\ (phase_failed r = false <-> status r <> "error").
Proof.
  unfold phase_failed. destruct (String.eqb_spec (status r) "error");
    split; split; intros; congruence.
Qed.

Lemma last_prints (out lines : list string) (d : string) :
  lines <> [] -> last (prints out lines) d = last lines d.
Proof.
  unfold prints. intros Hne.
  destruct lines as [|x lines] using rev_ind; [contradiction|].
  now rewrite app_assoc, !last_last.
Qed.

Section MainFacts.

Variables W Tool Schema Json : Type.
Variable txt : PyText.
Variable registry : Registry Tool.
Variable MODEL_NAME : option string.
Variables env_researcher env_analyst env_writer
  : Collaborators W Tool Schema Json.
Variable module_tracker : CostTracker.t.

Abbreviation researcher := (default_researcher registry MODEL_NAME).
Abbreviation analyst := (default_analyst registry MODEL_NAME).
Abbreviation writer := (default_writer registry MODEL_NAME).
Abbreviation main_of :=
  (main txt registry MODEL_NAME env_researcher env_analyst env_writer
        module_tracker).

(** Every way [main] can go when it is given a query. *)
Lemma main_cases (prog query : string) (more : list string) (w : W)
      (calls : list ToolCall) :
  let o := main_of (prog :: query :: more) w calls in
  exists rr sr,
    run env_researcher researcher query (new_agent_state w calls)
    = (Ok rr, sr)
    /\ research o = Some (rr, sr)
    /\ exit_code o = None
    /\ (exists before,
           stdout o
           = prints before (print_cost_breakdown txt module_tracker))
    /\ (status rr = "error"
        /\ analysis o = None /\ writing o = None
        /\ end_world o = world sr /\ end_registry_log o = registry_log sr
        \/ status rr <> "error"
           /\ exists ra sa,
               run env_analyst analyst (analysis_query_of (answer rr))
                   (new_agent_state (world sr) (registry_log sr))
               = (Ok ra, sa)
               /\ analysis o = Some (ra, sa)
               /\ (status ra = "error"
                   /\ writing o = None
                   /\ end_world o = world sa
                   /\ end_registry_log o = registry_log sa
                   \/ status ra <> "error"
                      /\ exists rw sw,
                          run env_writer writer
                              (writing_query_of (answer rr) (answer ra))
                              (new_agent_state (world sa) (registry_log sa))
                          = (Ok rw, sw)
                          /\ writing o = Some (rw, sw)
                          /\ end_world o = world sw
                          /\ end_registry_log o = registry_log sw
                          /\ (status rw <> "error" ->
                              exists before,
                                stdout o
                                = prints before
                                    (report_lines txt module_tracker
                                                  rr ra rw)))).
Proof.
  intros o. subst o. unfold main.
  change (create_researcher registry MODEL_NAME DEFAULT_MODEL
                            RESEARCHER_MAX_STEPS) with researcher.
  change (create_analyst registry MODEL_NAME DEFAULT_MODEL
                         ANALYST_MAX_STEPS) with analyst.
  change (create_writer registry MODEL_NAME DEFAULT_MODEL
                        WRITER_MAX_STEPS) with writer.
  cbv zeta.
  destruct (run_always_returns env_researcher researcher query
              (new_agent_state w calls)) as (rr & sr & Hr).
  rewrite Hr. exists rr, sr. split; [reflexivity|].
  destruct (phase_failed_iff rr) as [[Hf1 _] [Hf2 _]].
  destruct (phase_failed rr).
  { cbn [research exit_code stdout analysis writing end_world
         end_registry_log].
    split; [reflexivity|]. split; [reflexivity|].
    split; [now eexists|]. left. repeat split. now apply Hf1. }
  assert (Hrr : status rr <> "error") by now apply Hf2.
  unfold main_analysis. cbv zeta.
  destruct (run_always_returns env_analyst analyst
              (analysis_query_of (answer rr))
              (new_agent_state (world sr) (registry_log sr)))
    as (ra & sa & Ha).
  rewrite Ha.
  destruct (phase_failed_iff ra) as [[Hg1 _] [Hg2 _]].
  destruct (phase_failed ra).
  { cbn [research exit_code stdout analysis writing end_world
         end_registry_log].
    split; [reflexivity|]. split; [reflexivity|].
    split; [now eexists|]. right. split; [exact Hrr|].
    exists ra, sa. split; [reflexivity|]. split; [reflexivity|].
    left. repeat split. now apply Hg1. }
  assert (Hra : status ra <> "error") by now apply Hg2.
  unfold main_writing. cbv zeta.
  destruct (run_always_returns env_writer writer
              (writing_query_of (answer rr) (answer ra))
              (new_agent_state (world sa) (registry_log sa)))
    as (rw & sw & Hw).
  rewrite Hw.
  destruct (phase_failed_iff rw) as [[Hh1 _] [Hh2 _]].
  destruct (phase_failed rw);
    cbn [research exit_code stdout analysis writing end_world
         end_registry_log];
    (split; [reflexivity|]); (split; [reflexivity|]).
  - split; [now eexists|]. right. split; [exact Hrr|].
    exists ra, sa. split; [reflexivity|]. split; [reflexivity|].
    right. split; [exact Hra|].
    exists rw, sw. split; [exact Hw|]. do 3 (split; [reflexivity|]).
    intros Hne. exfalso. apply Hne, Hh1. reflexivity.
  - split.
    + unfold report_lines, prints. eexists.
      rewrite (app_assoc _ _ (print_cost_breakdown txt module_tracker)).
      reflexivity.
    + right. split; [exact Hrr|].
      exists ra, sa. split; [reflexivity|]. split; [reflexivity|].
      right. split; [exact Hra|].
      exists rw, sw. split; [exact Hw|]. do 3 (split; [reflexivity|]).
      intros _. now eexists.
Qed.

Lemma run_result_steps_bound (env : Collaborators W Tool Schema Json)
      (self : Agent Tool) (user_query : string) (s : AgentState W Json)
      (r : RunResult) (s' : AgentState W Json) :
  run env self user_query s = (Ok r, s') ->
  match steps r with
  | Some k => 0 <= k <= Z.max 0 (max_steps self)
              /\ (0 < max_steps self -> 1 <= k)
  | None => status r = "error"
  end
  /\ exists cs,
      cost_tracker s'
      = CostTracker.mk
          (CostTracker.queries (cost_tracker s)
           ++ [ledger_of user_query cs]) None.
Proof.
  intros Hrun.
  destruct (run_effects env self user_query s)
    as (r0 & s0 & logged & cs & fa & err & Hrun0 & _ & _ & Hct & _ & _ & Hle
        & Hmax & Hcase).
  rewrite Hrun in Hrun0. inversion Hrun0; subst r0 s0.
  split; [|now exists cs].
  destruct Hcase as [(Hst & _ & _ & Hsteps & Hlen & Hne)
                    |(Hst & _ & Hsteps & _)]; rewrite Hsteps.
  - split; [lia|]. intros Hpos. specialize (Hne Hpos).
    destruct logged; [contradiction | cbn; lia].
  - exact Hst.
Qed.

(** X15. [main] needs a query: with fewer than two entries in
    [sys.argv] it prints the usage line, runs no agent, leaves the world
    as it is and exits with code 1; with a query it never exits with a
    code and always runs the researcher. *)
Theorem main_needs_a_query :
  forall (argv : list string) (w : W) (calls : list ToolCall),
    let o := main_of argv w calls in
    ((List.length argv < 2)%nat ->
     exit_code o = Some 1 /\ stdout o = [USAGE]
     /\ research o = None /\ analysis o = None /\ writing o = None
     /\ end_world o = w /\ end_registry_log o = calls)
    /\ ((2 <= List.length argv)%nat ->
        exit_code o = None /\ research o <> None).
Proof.
  intros argv w calls o. split.
  - intros Hlen. subst o.
    destruct argv as [|prog [|query more]]; cbn in Hlen; try lia;
      cbn; auto 10.
  - intros Hlen.
    destruct argv as [|prog [|query more]]; cbn in Hlen; try lia.
    destruct (main_cases prog query more w calls)
      as (rr & sr & _ & Hres & Hexit & _).
    subst o. split; [exact Hexit|]. now rewrite Hres.
Qed.

(** X16. [main] stops at the first failed phase: when the researcher's
    result has status ["error"] neither the analyst nor the writer is
    run and the world is the one the researcher left; the analyst is run
    only after a research result that is not an error, and when its own
    result is an error the writer is not run; the writer is run only
    after an analysis result that is not an error. *)
Theorem main_stops_at_the_first_failed_phase :
  forall (prog query : string) (more : list string) (w : W)
         (calls : list ToolCall),
    let o := main_of (prog :: query :: more) w calls in
    exists rr sr,
      research o = Some (rr, sr)
      /\ (status rr = "error" ->
          analysis o = None /\ writing o = None
          /\ end_world o = world sr
          /\ end_registry_log o = registry_log sr)
      /\ (forall ra sa,
             analysis o = Some (ra, sa) ->
             status rr <> "error"
             /\ (status ra = "error" ->
                 writing o = None /\ end_world o = world sa
                 /\ end_registry_log o = registry_log sa))
      /\ (forall rw sw,
             writing o = Some (rw, sw) ->
             status rr <> "error"
             /\ exists ra sa,
                 analysis o = Some (ra, sa) /\ status ra <> "error").
Proof.
  intros prog query more w calls o.
  destruct (main_cases prog query more w calls)
    as (rr & sr & _ & Hres & _ & _ & Hcase).
  fold o in Hres, Hcase. exists rr, sr. split; [exact Hres|].
  destruct Hcase as [(Herr & Ha & Hw & Hworld & Hlog)
                    |(Hok & ra & sa & _ & Ha & Hcase)].
  - split; [auto|]. split.
    + intros ra sa H. rewrite Ha in H. discriminate H.
    + intros rw sw H. rewrite Hw in H. discriminate H.
  - split; [intros Herr; contradiction|].
    destruct Hcase as [(Herr & Hw & Hworld & Hlog)
                      |(Hok' & rw & sw & _ & Hw & _)].
    + split.
      * intros ra' sa' H. rewrite Ha in H. inversion H; subst. auto.
      * intros rw sw H. rewrite Hw in H. discriminate H.
    + split.
      * intros ra' sa' H. rewrite Ha in H. inversion H; subst.
        split; [exact Hok | intros Herr; contradiction].
      * intros rw' sw' H. split; [exact Hok|]. now exists ra, sa.
Qed.

(** X17. [main] passes the findings forward: the researcher is run on the
    query of the command line; the analyst, when it is run, starts as a
    new agent in the world the researcher left, on the analysis prompt
    followed by the researcher's answer; the writer, when it is run,
    starts in the world the analyst left, on the writing prompt with the
    researcher's answer and the analyst's answer; and when the writer's
    result is not an error the output ends with the report, whose
    fourth line is the writer's answer. *)
Theorem main_passes_findings_forward :
  forall (prog query : string) (more : list string) (w : W)
         (calls : list ToolCall),
    let o := main_of (prog :: query :: more) w calls in
    exists rr sr,
      run env_researcher researcher query (new_agent_state w calls)
      = (Ok rr, sr)
      /\ research o = Some (rr, sr)
      /\ (forall ra sa,
             analysis o = Some (ra, sa) ->
             run env_analyst analyst (analysis_query_of (answer rr))
                 (new_agent_state (world sr) (registry_log sr))
             = (Ok ra, sa)
             /\ forall rw sw,
                 writing o = Some (rw, sw) ->
                 run env_writer writer
                     (writing_query_of (answer rr) (answer ra))
                     (new_agent_state (world sa) (registry_log sa))
                 = (Ok rw, sw)
                 /\ (status rw <> "error" ->
                     exists before,
                       stdout o
                       = prints before
                           (report_lines txt module_tracker rr ra rw)
                       /\ nth_error
                            (report_lines txt module_tracker rr ra rw) 3
                          = Some (answer rw))).
Proof.
  intros prog query more w calls o.
  destruct (main_cases prog query more w calls)
    as (rr & sr & Hrun & Hres & _ & _ & Hcase).
  fold o in Hres, Hcase. exists rr, sr.
  split; [exact Hrun|]. split; [exact Hres|].
  intros ra sa Ha.
  destruct Hcase as [(_ & Ha' & _)|(_ & ra' & sa' & Hruna & Ha' & Hcase)];
    rewrite Ha' in Ha; [discriminate Ha|].
  inversion Ha; subst ra' sa'. split; [exact Hruna|].
  intros rw sw Hw.
  destruct Hcase as [(_ & Hw' & _)|(_ & rw' & sw' & Hrunw & Hw' & _ & _ & Hout)];
    rewrite Hw' in Hw; [discriminate Hw|].
  inversion Hw; subst rw' sw'. split; [exact Hrunw|].
  intros Hok. destruct (Hout Hok) as [before Hbefore].
  exists before. split; [exact Hbefore | reflexivity].
Qed.

(** X18. The cost summary [main] prints does not see the agents: with a
    query, the output always ends with the breakdown of the module-level
    tracker, which [main] never feeds; when that tracker has no sealed
    ledger the last line printed is the "No queries" line, although
    every agent that was run has sealed exactly one ledger in its own
    tracker. *)
Theorem main_cost_summary_ignores_the_agents :
  forall (prog query : string) (more : list string) (w : W)
         (calls : list ToolCall),
    let o := main_of (prog :: query :: more) w calls in
    (exists before,
        stdout o = prints before (print_cost_breakdown txt module_tracker))
    /\ (CostTracker.queries module_tracker = [] ->
        last (stdout o) EmptyString = "No queries tracked yet.")
    /\ (forall r s,
           research o = Some (r, s) \/ analysis o = Some (r, s)
           \/ writing o = Some (r, s) ->
           exists ledger, cost_tracker s = CostTracker.mk [ledger] None).
Proof.
  intros prog query more w calls o.
  destruct (main_cases prog query more w calls)
    as (rr & sr & Hrun & Hres & _ & (before & Hout) & Hcase).
  fold o in Hres, Hcase, Hout.
  split; [now exists before|]. split.
  - intros Hnone. rewrite Hout. unfold print_cost_breakdown.
    rewrite Hnone. now rewrite last_prints.
  - assert (Hsealed :
              forall (env : Collaborators W Tool Schema Json) self q w0 c0
                     r s,
                run env self q (@new_agent_state W Json w0 c0) = (Ok r, s) ->
                exists ledger, cost_tracker s = CostTracker.mk [ledger] None).
    { intros env self q w0 c0 r s H.
      destruct (run_result_steps_bound _ _ _ _ _ _ H) as [_ [cs Hct]].
      now exists (ledger_of q cs). }
    intros r s [H|[H|H]].
    + rewrite Hres in H. inversion H; subst. eapply Hsealed, Hrun.
    + destruct Hcase as [(_ & Ha & _)|(_ & ra & sa & Hruna & Ha & _)];
        rewrite Ha in H; [discriminate H|].
      inversion H; subst. eapply Hsealed, Hruna.
    + destruct Hcase as [(_ & _ & Hw & _)|(_ & ra & sa & _ & _ & Hcase)].
      * rewrite Hw in H. discriminate H.
      * destruct Hcase as [(_ & Hw & _)|(_ & rw & sw & Hrunw & Hw & _)];
          rewrite Hw in H; [discriminate H|].
        inversion H; subst. eapply Hsealed, Hrunw.
Qed.

(** X19. The step budgets of the three specialists hold in [main]: a
    research result that has a step count has between 1 and 15 steps, an
    analysis result between 1 and 20, a writing result between 1 and 4;
    a result without a step count is an error result. *)
Theorem main_phases_keep_their_step_budgets :
  forall (prog query : string) (more : list string) (w : W)
         (calls : list ToolCall),
    let o := main_of (prog :: query :: more) w calls in
    let within (budget : Z) (r : RunResult) :=
      match steps r with
      | Some k => 1 <= k <= budget
      | None => status r = "error"
      end in
    (forall r s, research o = Some (r, s) -> within 15 r)
    /\ (forall r s, analysis o = Some (r, s) -> within 20 r)
    /\ (forall r s, writing o = Some (r, s) -> within 4 r).
Proof.
  intros prog query more w calls o within.
  assert (Hbound :
            forall (env : Collaborators W Tool Schema Json) self q s0 r s,
              0 < max_steps self ->
              run env self q s0 = (Ok r, s) ->
              within (max_steps self) r).
  { intros env self q s0 r s Hpos H.
    destruct (run_result_steps_bound _ _ _ _ _ _ H) as [Hb _].
    unfold within. destruct (steps r) as [k|]; [|exact Hb].
    destruct Hb as [Hk Hone]. specialize (Hone Hpos). lia. }
  destruct (main_cases prog query more w calls)
    as (rr & sr & Hrun & Hres & _ & _ & Hcase).
  fold o in Hres, Hcase.
  split; [|split].
  - intros r s H. rewrite Hres in H. inversion H; subst.
    apply (Hbound _ researcher _ _ _ _ ltac:(reflexivity) Hrun).
  - intros r s H.
    destruct Hcase as [(_ & Ha & _)|(_ & ra & sa & Hruna & Ha & _)];
      rewrite Ha in H; [discriminate H|].
    inversion H; subst.
    apply (Hbound _ analyst _ _ _ _ ltac:(reflexivity) Hruna).
  - intros r s H.
    destruct Hcase as [(_ & _ & Hw & _)|(_ & ra & sa & _ & _ & Hcase)].
    + rewrite Hw in H. discriminate H.
    + destruct Hcase as [(_ & Hw & _)|(_ & rw & sw & Hrunw & Hw & _)];
        rewrite Hw in H; [discriminate H|].
      inversion H; subst.
      apply (Hbound _ writer _ _ _ _ ltac:(reflexivity) Hrunw).
Qed.

End MainFacts.

(** A run of [main] in which each of the three agents answers at once:
    the researcher with ["R"], the analyst with ["A"], the writer with
    ["Report"]. *)
Example main_three_phases :
  let txt := {| format_6f := fun _ => "0.000000";
                slice_to := fun n s => String.substring 0 n s |} in
  let registry := {| get_all_tools := [Calculator; Failing];
                     get_tools_by_category := fun _ => [Calculator] |} in
  let o := main txt registry None
                (collaborators [says (Some "R")] never never)
                (collaborators [says None; says (Some "A")] never never)
                (collaborators [says None; says None; says (Some "Report")]
                               never never)
                CostTracker.new ["src.main"; "What is 2+2?"] 0%nat [] in
  exit_code o = None
  /\ end_world o = 3%nat
  /\ nth_error (stdout o) 11 = Some "Report"
  /\ last (stdout o) EmptyString = "No queries tracked yet."
  /\ List.length (stdout o) = 22%nat.
Proof. vm_compute. repeat split. Qed.

(* ===================================================================== *)
(** ** Runs that ask for tools at every step                              *)
(* ===================================================================== *)


Section AllSteps.

Variables W Tool Schema Json : Type.
Variable env : Collaborators W Tool Schema Json.
Variable self : Agent Tool.

Lemma record_returns pairs :
  forall step messages (s : AgentState W Json),
    Forall (fun p : ToolCall * (string * string * string) =>
              arguments_usable env (snd (fst (snd p)))) pairs ->
    exists step' messages',
      record_tool_results env pairs step messages s
      = (Ok (step', messages'), s).
Proof.
  induction pairs as [|[c [[n a] out]] rest IH]; intros step messages s Hall.
  - cbn. unfold ret. now eexists; eexists.
  - inversion Hall as [|? ? Hhead Hrest]; subst. cbn [fst snd] in Hhead.
    cbn [record_tool_results]. unfold bind at 1.
    assert (Hin : exists j,
               (if truthy_str (Some a)
                then of_outcome (json_loads env a)
                else ret (json_empty env)) s = (Ok j, s)).
    { destruct Hhead as [Hempty|[j Hj]].
      - rewrite Hempty. unfold ret. now eexists.
      - destruct (truthy_str (Some a)).
        + unfold of_outcome. rewrite Hj. now eexists.
        + unfold ret. now eexists. }
    destruct Hin as [j Hj]. rewrite Hj. apply IH, Hrest.
Qed.

Lemma queued_arguments_usable (calls : list ToolCall)
      (vs : list LoopResult) :
  Forall (fun c => arguments_usable env (tc_arguments c)) calls ->
  Forall (fun t : ToolCall * string * string => arguments_usable env (snd t))
         (queued (combine calls vs)).
Proof.
  intros Hall. unfold queued. apply Forall_flat_map, Forall_forall.
  intros [c v] Hin. cbn [fst snd].
  destruct (is_looping v); constructor; [|constructor].
  cbn [snd]. apply in_combine_l in Hin.
  rewrite Forall_forall in Hall. now apply Hall.
Qed.

Lemma gathered_arguments_usable (tasks : list (ToolCall * string * string)) :
  forall w,
    Forall (fun t : ToolCall * string * string =>
              arguments_usable env (snd t)) tasks ->
    Forall (fun r : string * string * string =>
              arguments_usable env (snd (fst r)))
           (fst (gathered env w tasks)).
Proof.
  induction tasks as [|[[c n] a] rest IH]; intros w Hall; [constructor|].
  inversion Hall as [|? ? Hhead Hrest]; subst.
  cbn [gathered]. destruct (execute_tool_result env w n a) as [out w1].
  specialize (IH w1 Hrest). destruct (gathered env w1 rest) as [rs w2].
  cbn [fst snd] in *. now constructor.
Qed.

Lemma combine_right_forall {A B} (P : B -> Prop) (l : list A) (l' : list B) :
  Forall P l' -> Forall (fun p => P (snd p)) (combine l l').
Proof.
  intros Hall. apply Forall_forall. intros [a b] Hin.
  apply in_combine_r in Hin. rewrite Forall_forall in Hall.
  now apply Hall.
Qed.

Hypothesis model_always_asks :
  forall w m msgs sch ch,
  exists response w',
    acompletion env w m msgs sch ch = (Ok response, w')
    /\ truthy_list (r_tool_calls response) = true
    /\ Forall (fun c => arguments_usable env (tc_arguments c))
              (requested_calls response).

Hypothesis never_stagnant :
  forall w text,
    is_looping (fst (check_output_stagnation env w text)) = false.

(** Under these conditions a step never faults, and goes on. *)
Lemma loop_body_returns trace_id step_number messages
      (s : AgentState W Json) :
  exists messages' s',
    loop_body env self trace_id step_number messages s
    = (Ok (Next, messages'), s').
Proof.
  unfold loop_body. cbv zeta.
  unfold bind at 1, ask_raising.
  destruct (model_always_asks (world s) (model self) messages
              (tools_argument (map (to_openai_schema env) (tools self)))
              (tool_choice_argument
                 (map (to_openai_schema env) (tools self))))
    as (r & w1 & Hllm & Hasks & Hargs).
  rewrite Hllm. unfold bind at 1, on_cost_tracker.
  cbn [world cost_tracker tracer_log registry_log set_world].
  unfold requested_calls in Hargs.
  destruct (r_tool_calls r) as [[|c cs]|]; try discriminate Hasks.
  unfold bind at 1. rewrite dispatch_eq. cbv zeta.
  cbn [world cost_tracker tracer_log registry_log set_world].
  unfold bind at 1. rewrite gather_eq.
  cbn [world cost_tracker tracer_log registry_log after_tools set_world
       fst snd app].
  unfold bind, tell_tracer, ask, ret.
  match goal with
  | |- context [record_tool_results env ?p ?st ?m ?s0] =>
      destruct (record_returns p st m s0) as (step' & m2 & Hrec)
  end.
  { apply combine_right_forall with
      (P := fun r : string * string * string =>
              arguments_usable env (snd (fst r))).
    apply gathered_arguments_usable, queued_arguments_usable, Hargs. }
  rewrite Hrec.
  destruct (truthy_str (r_content r)); [|now eexists; eexists].
  cbn [world].
  match goal with
  | |- context [check_output_stagnation env ?w ?t] =>
      pose proof (never_stagnant w t) as Hno;
      destruct (check_output_stagnation env w t) as [v w5]
  end.
  cbn [fst] in Hno. rewrite Hno. now eexists; eexists.
Qed.

Lemma agent_loop_returns trace_id range :
  forall step_number messages (s : AgentState W Json),
  exists k exit s',
    agent_loop env self trace_id range step_number messages s
    = (Ok (k, exit), s').
Proof.
  induction range as [|n rest IH]; intros step_number messages s.
  - cbn. unfold ret. now eexists; eexists; eexists.
  - cbn [agent_loop]. unfold bind at 1.
    destruct (loop_body_returns trace_id n messages s)
      as (m1 & s1 & Hbody).
    rewrite Hbody. apply IH.
Qed.

End AllSteps.

Arguments agent_loop_returns {W Tool Schema Json}.


